(** * The content-pipeline orchestrator of the Streamlit front end

    A shallow embedding of [service_ui/services/microservice_client.py]
    (the stage gateways) and [service_ui/utils/workflow_manager.py] (the
    workflow manager that drives one run through upload, process, generate
    and quality), followed by the properties of the run state, the status
    log and the gateway traffic.

    Python values are modelled as JSON trees, a dict as a finite map with
    string keys, an exception as a value of [PyResult], and the session
    state plus the list of gateway calls made so far as the state of a small
    state-and-exception monad.  The last part models the session state with
    explicit object references, to speak about aliasing. *)

From Stdlib Require Import ZArith String List Floats Lia.
From stdpp Require Import base option strings pretty gmap list.

Open Scope string_scope.
Open Scope Z_scope.

(** ** Python values *)

#[warnings="-register-all"]
Inductive json : Type :=
| JNull
| JBool (b : bool)
| JInt (z : Z)
| JFloat (f : float)
| JStr (s : string)
| JList (l : list json)
| JDict (d : gmap string json).

Definition bytes : Type := list Byte.byte.

(** Exceptions derived from Python's [Exception]; [str(e)] is [exn_msg]. *)
Record exn : Type := Exn { exn_class : string; exn_msg : string }.

Inductive PyResult (A : Type) : Type :=
| Ok (a : A)
| Raise (e : exn).
Arguments Ok {A} a.
Arguments Raise {A} e.

#[global] Instance PyResult_ret : MRet PyResult := fun _ a => Ok a.
#[global] Instance PyResult_bind : MBind PyResult := fun _ _ k m =>
  match m with
  | Ok a => k a
  | Raise e => Raise e
  end.

(** [try: body except Exception as e: handler(e)] *)
Definition try_catch {A} (body : PyResult A) (handler : exn -> PyResult A)
  : PyResult A :=
  match body with
  | Ok a => Ok a
  | Raise e => handler e
  end.

Definition is_ok {A} (r : PyResult A) : bool :=
  match r with Ok _ => true | Raise _ => false end.

(** Truth value of an object, as [if x:] and [x or y] test it. *)
Definition truthy (v : json) : bool :=
  match v with
  | JNull => false
  | JBool b => b
  | JInt z => negb (z =? 0)
  | JFloat f => negb (PrimFloat.eqb f 0%float)
  | JStr s => negb (String.eqb s "")
  | JList l => negb (bool_decide (length l = 0%nat))
  | JDict d => negb (bool_decide (size d = 0%nat))
  end.

(** [x or y] *)
Definition py_or (x y : json) : json := if truthy x then x else y.

(** [d.get(key, dflt)]; only a dict has the method. *)
Definition py_get (d : json) (key : string) (dflt : json) : PyResult json :=
  match d with
  | JDict m => Ok (default dflt (m !! key))
  | _ => Raise (Exn "AttributeError" "object has no attribute 'get'")
  end.

(** [d[key]] on a dict of strings, as [self.services['upload']]. *)
Definition py_getitem (d : gmap string string) (key : string) : PyResult string :=
  match d !! key with
  | Some v => Ok v
  | None => Raise (Exn "KeyError" key)
  end.

(** A Python [str] is a sequence of code points; a [string] here is its
    UTF-8 encoding, in which every code point starts with one byte that is
    not of the form 10xxxxxx. *)
Definition utf8_start (c : Ascii.ascii) : bool :=
  let n := Ascii.nat_of_ascii c in
  negb ((128 <=? n)%nat && (n <? 192)%nat).

Fixpoint utf8_length (s : string) : nat :=
  match s with
  | EmptyString => 0%nat
  | String c s' => ((if utf8_start c then 1 else 0) + utf8_length s')%nat
  end.

(** The first [n] code points of [s]: the bytes up to, and without, the
    start of code point [n]. *)
Fixpoint utf8_take (n : nat) (s : string) : string :=
  match s with
  | EmptyString => EmptyString
  | String c s' =>
      if utf8_start c then
        match n with
        | O => EmptyString
        | S n' => String c (utf8_take n' s')
        end
      else String c (utf8_take n s')
  end.

(** [len(v)]: lists, strings and dicts are sized, the rest raise. *)
Definition py_len (v : json) : PyResult json :=
  match v with
  | JList l => Ok (JInt (Z.of_nat (length l)))
  | JStr s => Ok (JInt (Z.of_nat (utf8_length s)))
  | JDict d => Ok (JInt (Z.of_nat (size d)))
  | _ => Raise (Exn "TypeError" "object has no len()")
  end.

(** [v[:5]]: lists and strings are sliced, the rest raise. *)
Definition py_slice5 (v : json) : PyResult json :=
  match v with
  | JList l => Ok (JList (take 5 l))
  | JStr s => Ok (JStr (utf8_take 5 s))
  | _ => Raise (Exn "TypeError" "object is not subscriptable by a slice")
  end.

(** ** The HTTP layer under the gateways

    [requests] is a library: what it returns is an input of the model.  A
    call either raises (connection refused, timeout, ...) or gives a
    response; [raise_for_status] and [json()] are as the library documents
    them. *)

Inductive payload : Type :=
| NoPayload
| JsonBody (j : json)
| Multipart (files : list (string * (string * bytes * string))) (data : json).

Record http_request : Type := HttpRequest {
  http_method : string;
  http_url : string;
  http_payload : payload;
  http_params : gmap string json;
  http_timeout : Z
}.

Record response : Type := Response {
  status_code : Z;
  http_error_msg : string;      (* the text raise_for_status would raise *)
  json_body : PyResult json     (* what response.json() gives *)
}.

Definition network : Type := http_request -> PyResult response.

(** [response.raise_for_status()]: HTTPError for a 4xx or 5xx status. *)
Definition raise_for_status (r : response) : PyResult unit :=
  if (400 <=? status_code r) && (status_code r <? 600)
  then Raise (Exn "HTTPError" (http_error_msg r))
  else Ok tt.

Definition requests_get (net : network) (url : string) (timeout : Z)
  : PyResult response :=
  net (HttpRequest "GET" url NoPayload ∅ timeout).

Definition requests_post (net : network) (url : string) (body : payload)
    (params : gmap string json) (timeout : Z) : PyResult response :=
  net (HttpRequest "POST" url body params timeout).

(** ** The stage gateways: [MicroserviceClient] *)

Module MicroserviceClient.

Definition services : gmap string string :=
  {[ "upload" := "http://localhost:8001";
     "analysis" := "http://localhost:8003";
     "trend" := "http://localhost:8002";
     "generation" := "http://localhost:8004";
     "quality" := "http://localhost:8005" ]}.

Definition timeout : Z := 120.

(** The dict every method returns from its [except Exception as e]. *)
Definition error_result (e : exn) : json :=
  JDict {[ "error" := JStr (exn_msg e); "success" := JBool false ]}.

(** The body shared by the methods after the request is made:
    [response.raise_for_status(); return response.json()]. *)
Definition checked_json (r : PyResult response) : PyResult json :=
  response ← r;
  _ ← raise_for_status response;
  json_body response.

(** [enumerate(files)] building the multipart fields. *)
Fixpoint files_data_from (i : nat) (files : list bytes)
  : list (string * (string * bytes * string)) :=
  match files with
  | [] => []
  | file_bytes :: rest =>
      ("images", ("image_" ++ pretty i ++ ".jpg", file_bytes, "image/jpeg"))
        :: files_data_from (S i) rest
  end.

Definition upload_images (net : network) (files : list bytes) : PyResult json :=
  try_catch
    (base ← py_getitem services "upload";
     let url := base ++ "/upload/images" in
     let files_data := files_data_from 0 files in
     let form_data :=
       JDict {[ "description" := JStr "AI Instagram Content Generator Upload" ]} in
     checked_json (requests_post net url (Multipart files_data form_data) ∅ timeout))
    (fun e => Ok (error_result e)).

Definition get_youtube_trends (net : network) : PyResult json :=
  try_catch
    (base ← py_getitem services "trend";
     let url := base ++ "/analyzes/youtube" in
     checked_json (requests_get net url timeout))
    (fun e => Ok (error_result e)).

Definition analyze_drive_content (net : network) (folder_id keywords : json)
  : PyResult json :=
  try_catch
    (base ← py_getitem services "analysis";
     let url := base ++ "/analyzes/drive/enhanced" in
     let request_data :=
       JDict {[ "keywords" := py_or keywords (JList []);
                "description" := JStr "AI Instagram Content Analysis" ]} in
     let params : gmap string json :=
       if truthy folder_id then {[ "folder_id" := folder_id ]} else ∅ in
     checked_json (requests_post net url (JsonBody request_data) params timeout))
    (fun e => Ok (error_result e)).

Definition generate_instagram_content (net : network)
    (visual_summary keywords video_summary trends style : json) : PyResult json :=
  try_catch
    (base ← py_getitem services "generation";
     let url := base ++ "/generate/poster" in
     let request_data :=
       JDict {[ "visual_summary" := visual_summary;
                "video_summary" := video_summary;
                "keywords" := keywords;
                "trends" := py_or trends (JList []);
                "poster_style" := style;
                "include_trends" := JBool (truthy trends) ]} in
     checked_json (requests_post net url (JsonBody request_data) ∅ 180))
    (fun e => Ok (error_result e)).

Definition assess_image_quality (net : network) (image_path prompt : json)
  : PyResult json :=
  try_catch
    (base ← py_getitem services "quality";
     let url := base ++ "/quality/assess" in
     let request_data :=
       JDict {[ "image_path" := image_path; "prompt" := prompt ]} in
     checked_json (requests_post net url (JsonBody request_data) ∅ timeout))
    (fun e => Ok (error_result e)).

Definition finalize_content (net : network)
    (image_path original_prompt style platform max_hashtags : json)
  : PyResult json :=
  try_catch
    (base ← py_getitem services "quality";
     let url := base ++ "/quality/finalize" in
     let request_data :=
       JDict {[ "image_path" := image_path;
                "original_prompt" := original_prompt;
                "style" := style;
                "platform" := platform;
                "max_hashtags" := max_hashtags ]} in
     checked_json (requests_post net url (JsonBody request_data) ∅ timeout))
    (fun e => Ok (error_result e)).

End MicroserviceClient.

(** The calls the workflow manager makes on its client, with their
    arguments as passed. *)
Inductive call : Type :=
| UploadImages (files : list bytes)
| GetYoutubeTrends
| AnalyzeDriveContent (folder_id keywords : json)
| GenerateInstagramContent (visual_summary keywords video_summary trends style : json)
| AssessImageQuality (image_path prompt : json)
| FinalizeContent (image_path original_prompt style platform max_hashtags : json).

(** What answers a call: the client of the source over some network, or any
    other implementation of the same six methods. *)
Definition gateway : Type := call -> PyResult json.

Definition client (net : network) : gateway := fun c =>
  match c with
  | UploadImages files => MicroserviceClient.upload_images net files
  | GetYoutubeTrends => MicroserviceClient.get_youtube_trends net
  | AnalyzeDriveContent folder_id keywords =>
      MicroserviceClient.analyze_drive_content net folder_id keywords
  | GenerateInstagramContent visual_summary keywords video_summary trends style =>
      MicroserviceClient.generate_instagram_content net
        visual_summary keywords video_summary trends style
  | AssessImageQuality image_path prompt =>
      MicroserviceClient.assess_image_quality net image_path prompt
  | FinalizeContent image_path original_prompt style platform max_hashtags =>
      MicroserviceClient.finalize_content net
        image_path original_prompt style platform max_hashtags
  end.

(** The failures of one gateway call, seen from the network. *)
Definition net_failure (r : PyResult response) : option exn :=
  match r with
  | Raise e => Some e
  | Ok resp =>
      match raise_for_status resp with
      | Raise e => Some e
      | Ok _ =>
          match json_body resp with
          | Raise e => Some e
          | Ok _ => None
          end
      end
  end.

(** The request a call puts on the wire. *)
Definition request_of (c : call) : http_request :=
  match c with
  | UploadImages files =>
      HttpRequest "POST" "http://localhost:8001/upload/images"
        (Multipart (MicroserviceClient.files_data_from 0 files)
           (JDict {[ "description" := JStr "AI Instagram Content Generator Upload" ]}))
        ∅ 120
  | GetYoutubeTrends =>
      HttpRequest "GET" "http://localhost:8002/analyzes/youtube" NoPayload ∅ 120
  | AnalyzeDriveContent folder_id keywords =>
      HttpRequest "POST" "http://localhost:8003/analyzes/drive/enhanced"
        (JsonBody (JDict {[ "keywords" := py_or keywords (JList []);
                            "description" := JStr "AI Instagram Content Analysis" ]}))
        (if truthy folder_id then {[ "folder_id" := folder_id ]} else ∅) 120
  | GenerateInstagramContent visual_summary keywords video_summary trends style =>
      HttpRequest "POST" "http://localhost:8004/generate/poster"
        (JsonBody (JDict {[ "visual_summary" := visual_summary;
                            "video_summary" := video_summary;
                            "keywords" := keywords;
                            "trends" := py_or trends (JList []);
                            "poster_style" := style;
                            "include_trends" := JBool (truthy trends) ]}))
        ∅ 180
  | AssessImageQuality image_path prompt =>
      HttpRequest "POST" "http://localhost:8005/quality/assess"
        (JsonBody (JDict {[ "image_path" := image_path; "prompt" := prompt ]}))
        ∅ 120
  | FinalizeContent image_path original_prompt style platform max_hashtags =>
      HttpRequest "POST" "http://localhost:8005/quality/finalize"
        (JsonBody (JDict {[ "image_path" := image_path;
                            "original_prompt" := original_prompt;
                            "style" := style;
                            "platform" := platform;
                            "max_hashtags" := max_hashtags ]}))
        ∅ 120
  end.

(** ** The session state and the monad of the workflow manager

    [st.session_state.workflow_state] is a dict; the world also keeps the
    calls made on the client, oldest first.  A computation may change the
    world and then raise: the changes stay, as in Python. *)

Record world : Type := World {
  workflow_state : gmap string json;
  calls : list call
}.

(** What the manager takes from outside: the client, the clock behind
    [time.strftime] (asked with the number of entries already logged), and
    the text Python's formatting gives a value in an f-string, plain and
    with the [.2f] specification. *)
Record env : Type := Env {
  gw : gateway;
  strftime : nat -> string;
  str : json -> string;
  str_2f : json -> string
}.

Definition M (A : Type) : Type := world -> PyResult A * world.

#[global] Instance M_ret : MRet M := fun _ a w => (Ok a, w).
#[global] Instance M_bind : MBind M := fun _ _ k m w =>
  match m w with
  | (Ok a, w') => k a w'
  | (Raise e, w') => (Raise e, w')
  end.

Definition lift {A} (r : PyResult A) : M A := fun w => (r, w).

(** [try: body except Exception as e: handler(e)] *)
Definition try_except {A} (body : M A) (handler : exn -> M A) : M A := fun w =>
  match body w with
  | (Ok a, w') => (Ok a, w')
  | (Raise e, w') => handler e w'
  end.

(** [st.session_state.workflow_state.get(key, dflt)] *)
Definition state_get (key : string) (dflt : json) : M json := fun w =>
  (Ok (default dflt (workflow_state w !! key)), w).

(** [st.session_state.workflow_state[key] = v] *)
Definition state_set (key : string) (v : json) : M unit := fun w =>
  (Ok tt, World (<[key := v]> (workflow_state w)) (calls w)).

(** A call on [self.client]. *)
Definition invoke (E : env) (c : call) : M json := fun w =>
  (gw E c, World (workflow_state w) (calls w ++ [c])).

(** [d[key]] *)
Definition py_item (d : json) (key : string) : PyResult json :=
  match d with
  | JDict m =>
      match m !! key with
      | Some v => Ok v
      | None => Raise (Exn "KeyError" key)
      end
  | _ => Raise (Exn "TypeError" "object is not subscriptable")
  end.

(** [f"{v:.2f}"]: numbers are formatted, the rest raise. *)
Definition py_format_2f (E : env) (v : json) : PyResult string :=
  match v with
  | JInt _ | JFloat _ | JBool _ => Ok (str_2f E v)
  | _ => Raise (Exn "TypeError" "unsupported format string")
  end.

(** An uploaded file is an in-memory stream; [seek] raises on a closed one. *)
Record UploadedFile : Type := { closed : bool; content : bytes }.

Definition seek_and_read (f : UploadedFile) : PyResult bytes :=
  if closed f then Raise (Exn "ValueError" "I/O operation on closed file.")
  else Ok (content f).

Definition status_logs (w : world) : list json :=
  match workflow_state w !! "status_logs" with
  | Some (JList l) => l
  | _ => []
  end.

Definition get_step (w : world) : json :=
  default JNull (workflow_state w !! "step").

(** ** The workflow manager *)

Module WorkflowManager.

Definition initial_state : gmap string json :=
  {[ "step" := JInt 0;
     "trend_data" := JNull;
     "analysis_data" := JNull;
     "generation_data" := JNull;
     "quality_data" := JNull;
     "uploaded_files" := JList [];
     "status_logs" := JList [];
     "final_output" := JNull ]}.

Definition reset_workflow_state : M unit := fun w =>
  (Ok tt, World initial_state (calls w)).

Definition log_entry (timestamp message status : string) : json :=
  JDict {[ "time" := JStr timestamp;
           "message" := JStr message;
           "status" := JStr status ]}.

(** [st.session_state.workflow_state['status_logs'].append(log_entry)] *)
Definition add_status_log (E : env) (message status : string) : M unit := fun w =>
  let timestamp := strftime E (length (status_logs w)) in
  match workflow_state w !! "status_logs" with
  | None => (Raise (Exn "KeyError" "status_logs"), w)
  | Some (JList l) =>
      (Ok tt,
       World (<["status_logs" := JList (l ++ [log_entry timestamp message status])]>
                (workflow_state w))
             (calls w))
  | Some _ => (Raise (Exn "AttributeError" "object has no attribute 'append'"), w)
  end.

Definition get_status_logs : M json :=
  state_get "status_logs" (JList []).

(** The loop over [uploaded_files]: [seek(0)] then [read()] on each. *)
Fixpoint read_files (uploaded_files : list UploadedFile) : PyResult (list bytes) :=
  match uploaded_files with
  | [] => Ok []
  | uploaded_file :: rest =>
      b ← seek_and_read uploaded_file;
      bs ← read_files rest;
      Ok (b :: bs)
  end.

Definition upload_materials (E : env) (uploaded_files : list UploadedFile)
    (keywords description : json) : M bool :=
  try_except
    (add_status_log E "📤 Materyaller yükleniyor..." "info";;
     file_bytes_list ← lift (read_files uploaded_files);
     upload_result ← invoke E (UploadImages file_bytes_list);
     success ← lift (py_get upload_result "success" (JBool false));
     if truthy success then
       assets ← lift (py_get upload_result "assets" (JDict ∅));
       images ← lift (py_get assets "images" (JList []));
       state_set "uploaded_files" images;;
       state_set "keywords" keywords;;
       state_set "description" description;;
       state_set "step" (JInt 1);;
       uploaded_count ← lift (py_get upload_result "uploaded_count"
                                (JInt (Z.of_nat (length uploaded_files))));
       add_status_log E ("✅ " ++ str E uploaded_count ++ " dosya başarıyla yüklendi")
         "success";;
       add_status_log E "🎯 Process adımı için hazır" "info";;
       mret true
     else
       error_msg ← lift (py_get upload_result "error" (JStr "Bilinmeyen hata"));
       add_status_log E ("❌ Yükleme hatası: " ++ str E error_msg) "error";;
       mret false)
    (fun e =>
       add_status_log E ("❌ Yükleme sırasında hata: " ++ exn_msg e) "error";;
       mret false).

Definition empty_trend_data : json :=
  JDict {[ "trends" := JList []; "hashtags" := JList [] ]}.

Definition start_process (E : env) : M bool :=
  try_except
    (add_status_log E "🚀 İşlem başlatılıyor..." "info";;
     (* 1. trends *)
     add_status_log E "📈 YouTube trend analizi yapılıyor..." "info";;
     trend_result ← invoke E GetYoutubeTrends;
     trend_error ← lift (py_get trend_result "error" JNull);
     (if truthy trend_error then
        err ← lift (py_item trend_result "error");
        add_status_log E ("⚠️ Trend analizi hatası: " ++ str E err) "warning";;
        state_set "trend_data" empty_trend_data
      else
        state_set "trend_data" trend_result;;
        trends ← lift (py_get trend_result "trends" (JList []));
        trend_count ← lift (py_len trends);
        add_status_log E ("✅ " ++ str E trend_count ++ " trend analizi tamamlandı")
          "success");;
     (* 2. materials *)
     add_status_log E "🔍 Yüklenen materyaller analiz ediliyor..." "info";;
     keywords ← state_get "keywords" (JList []);
     description ← state_get "description" (JStr "");
     analysis_result ← invoke E (AnalyzeDriveContent JNull keywords);
     analysis_error ← lift (py_get analysis_result "error" JNull);
     if truthy analysis_error then
       err ← lift (py_item analysis_result "error");
       add_status_log E ("❌ Materyal analizi hatası: " ++ str E err) "error";;
       mret false
     else
       state_set "analysis_data" analysis_result;;
       kws ← lift (py_get analysis_result "keywords" (JList []));
       keyword_count ← lift (py_len kws);
       add_status_log E ("✅ Materyal analizi tamamlandı - " ++ str E keyword_count
                         ++ " anahtar kelime") "success";;
       state_set "step" (JInt 2);;
       add_status_log E "🎯 İşlem tamamlandı - Görsel üretimi için hazır" "success";;
       mret true)
    (fun e =>
       add_status_log E ("❌ İşlem sırasında hata: " ++ exn_msg e) "error";;
       mret false).

Definition generate_content (E : env) (style : json) : M bool :=
  try_except
    (add_status_log E "🎨 İçerik üretimi başlatılıyor..." "info";;
     analysis_data ← state_get "analysis_data" (JDict ∅);
     trend_data ← state_get "trend_data" (JDict ∅);
     visual_summary ← lift (py_get analysis_data "visual_summary"
                              (JStr "AI generated content"));
     video_summary ← lift (py_get analysis_data "video_summary" (JStr ""));
     keywords ← lift (py_get analysis_data "keywords" (JList []));
     all_trends ← lift (py_get trend_data "trends" (JList []));
     trends ← lift (py_slice5 all_trends);
     n_keywords ← lift (py_len keywords);
     n_trends ← lift (py_len trends);
     add_status_log E ("📝 Prompt hazırlanıyor - " ++ str E n_keywords
                       ++ " anahtar kelime, " ++ str E n_trends ++ " trend") "info";;
     generation_result ← invoke E
       (GenerateInstagramContent visual_summary keywords video_summary trends style);
     generation_error ← lift (py_get generation_result "error" JNull);
     if truthy generation_error then
       err ← lift (py_item generation_result "error");
       add_status_log E ("❌ İçerik üretimi hatası: " ++ str E err) "error";;
       mret false
     else
       state_set "generation_data" generation_result;;
       filename ← lift (py_get generation_result "filename" (JStr "Bilinmiyor"));
       add_status_log E ("✅ Görsel üretildi: " ++ str E filename) "success";;
       state_set "step" (JInt 3);;
       mret true)
    (fun e =>
       add_status_log E ("❌ İçerik üretimi sırasında hata: " ++ exn_msg e) "error";;
       mret false).

#[warnings="-inexact-float"]
Definition default_quality_score : json := JFloat 0.7%float.

Definition assess_quality (E : env) : M bool :=
  try_except
    (add_status_log E "🔍 Kalite değerlendirmesi başlatılıyor..." "info";;
     generation_data ← state_get "generation_data" (JDict ∅);
     analysis_data ← state_get "analysis_data" (JDict ∅);
     image_path ← lift (py_get generation_data "image_path" (JStr ""));
     prompt ← lift (py_get analysis_data "visual_summary"
                      (JStr "AI generated content"));
     quality_result ← invoke E (AssessImageQuality image_path prompt);
     quality_error ← lift (py_get quality_result "error" JNull);
     quality_score ←
       (if truthy quality_error then
          err ← lift (py_item quality_result "error");
          add_status_log E ("⚠️ Kalite değerlendirmesi hatası: " ++ str E err)
            "warning";;
          mret default_quality_score
        else
          quality_assessment ← lift (py_get quality_result "quality_assessment"
                                       (JDict ∅));
          overall_score ← lift (py_get quality_assessment "overall_score" (JDict ∅));
          quality_score ← lift (py_get overall_score "overall_score"
                                  default_quality_score);
          shown ← lift (py_format_2f E quality_score);
          add_status_log E ("📊 Kalite skoru: " ++ shown) "info";;
          mret quality_score);
     add_status_log E "🏷️ İçerik finalize ediliyor..." "info";;
     finalize_result ← invoke E
       (FinalizeContent image_path prompt (JStr "modern") (JStr "instagram")
          (JInt 15));
     finalize_error ← lift (py_get finalize_result "error" JNull);
     if truthy finalize_error then
       err ← lift (py_item finalize_result "error");
       add_status_log E ("❌ Finalizasyon hatası: " ++ str E err) "error";;
       mret false
     else
       let final_output :=
         JDict {[ "image_data" := generation_data;
                  "quality_data" := quality_result;
                  "finalized_content" := finalize_result;
                  "quality_score" := quality_score ]} in
       state_set "quality_data" quality_result;;
       state_set "final_output" final_output;;
       state_set "step" (JInt 4);;
       finalized_content ← lift (py_get finalize_result "finalized_content"
                                   (JDict ∅));
       hashtags ← lift (py_get finalized_content "hashtags" (JList []));
       hashtag_count ← lift (py_len hashtags);
       add_status_log E ("✅ İçerik hazır! " ++ str E hashtag_count
                         ++ " hashtag oluşturuldu") "success";;
       add_status_log E "🎉 Yayınlamaya hazır!" "success";;
       mret true)
    (fun e =>
       add_status_log E ("❌ Kalite değerlendirmesi sırasında hata: " ++ exn_msg e)
         "error";;
       mret false).

Definition get_current_step : M json :=
  state_get "step" (JInt 0).

(** [workflow_state.get(key)]: None for a key that is not there. *)
Definition get_workflow_data (key : string) : M json :=
  state_get key JNull.

End WorkflowManager.

(** ** Operations on one run, and what is observed of it *)

Inductive operation : Type :=
| UploadMaterials (uploaded_files : list UploadedFile) (keywords description : json)
| StartProcess
| GenerateContent (style : json)
| AssessQuality.

Definition run_op (E : env) (op : operation) : M bool :=
  match op with
  | UploadMaterials uploaded_files keywords description =>
      WorkflowManager.upload_materials E uploaded_files keywords description
  | StartProcess => WorkflowManager.start_process E
  | GenerateContent style => WorkflowManager.generate_content E style
  | AssessQuality => WorkflowManager.assess_quality E
  end.

(** The step an operation stores when it goes through. *)
Definition target (op : operation) : Z :=
  match op with
  | UploadMaterials _ _ _ => 1
  | StartProcess => 2
  | GenerateContent _ => 3
  | AssessQuality => 4
  end.

(** A caller's session: operations in any order, each against the
    environment of its moment. *)
Fixpoint run_ops (script : list (env * operation)) (w : world) : world :=
  match script with
  | [] => w
  | (E, op) :: rest => run_ops rest (run_op E op w).2
  end.

Definition fresh_run : world := World WorkflowManager.initial_state [].

(** The world after the three kinds of effect. *)
Definition put (key : string) (v : json) (w : world) : world :=
  World (<[key := v]> (workflow_state w)) (calls w).

Definition called (c : call) (w : world) : world :=
  World (workflow_state w) (calls w ++ [c]).

Definition logged (E : env) (message status : string) (w : world) : world :=
  put "status_logs"
    (JList (status_logs w ++
            [WorkflowManager.log_entry (strftime E (length (status_logs w)))
               message status])) w.

(** The status log is there and is a list, as after a reset. *)
Definition logging (w : world) : Prop :=
  exists l, workflow_state w !! "status_logs" = Some (JList l).

Definition field (key : string) (w : world) : json :=
  default JNull (workflow_state w !! key).

(** A gateway result the manager takes for a failure, and for a success:
    it tests [result.get('error')]. *)
Definition has_error (r : json) : bool :=
  match r with
  | JDict d => truthy (default JNull (d !! "error"))
  | _ => false
  end.

Definition succeeded (r : json) : bool :=
  match r with
  | JDict d => negb (truthy (default JNull (d !! "error")))
  | _ => false
  end.

Definition sized (v : json) : bool := is_ok (py_len v).

Definition is_dict (v : json) : bool :=
  match v with JDict _ => true | _ => false end.

Definition entry_status (entry : json) : json :=
  match entry with
  | JDict d => default JNull (d !! "status")
  | _ => JNull
  end.

Definition is_quality_call (c : call) : bool :=
  match c with
  | AssessImageQuality _ _ | FinalizeContent _ _ _ _ _ => true
  | _ => false
  end.

Definition finalize_constants (c : call) : Prop :=
  match c with
  | FinalizeContent _ _ style platform max_hashtags =>
      style = JStr "modern" /\ platform = JStr "instagram" /\ max_hashtags = JInt 15
  | _ => True
  end.

(** The assets of a run and the step from which each should be there. *)
Inductive asset : Type :=
| UploadedFiles | TrendData | AnalysisData | GenerationData | QualityData | FinalOutput.

Definition asset_key (a : asset) : string :=
  match a with
  | UploadedFiles => "uploaded_files"
  | TrendData => "trend_data"
  | AnalysisData => "analysis_data"
  | GenerationData => "generation_data"
  | QualityData => "quality_data"
  | FinalOutput => "final_output"
  end.

Definition asset_step (a : asset) : Z :=
  match a with
  | UploadedFiles => 1
  | TrendData | AnalysisData => 2
  | GenerationData => 3
  | QualityData | FinalOutput => 4
  end.

(** Neither None nor empty. *)
Definition populated (a : asset) (w : world) : bool :=
  truthy (field (asset_key a) w).

Definition reached (a : asset) (w : world) : bool :=
  match get_step w with
  | JInt z => asset_step a <=? z
  | _ => false
  end.

(** A computation keeps a relation between the world it starts in and
    the one it leaves, whatever it returns or raises. *)
Definition preserves {A} (R : relation world) (m : M A) : Prop :=
  forall w r w', m w = (r, w') -> R w w'.

Definition log_extends : relation world := fun w w' =>
  logging w -> logging w' /\ status_logs w `prefix_of` status_logs w'.

Definition step_kept_or (t : Z) : relation world := fun w w' =>
  get_step w' = get_step w \/ get_step w' = JInt t.

Definition calls_extend (P : call -> Prop) : relation world := fun w w' =>
  exists new : list call, calls w' = (calls w ++ new)%list /\ Forall P new.

(** The value under "error" that the manager tests and then prints. *)
Definition error_of (r : json) : json :=
  match r with
  | JDict d => default JNull (d !! "error")
  | _ => JNull
  end.

(** The keywords of an analysis result, as [start_process] counts them. *)
Definition analysis_keywords (r : json) : json :=
  match r with
  | JDict d => default (JList []) (d !! "keywords")
  | _ => JList []
  end.


(** A cancellation flag, were there one, would be an entry of the session
    state that the operations test before they call a gateway. *)
Definition flag_set (key : string) (w : world) : Prop :=
  truthy (field key w) = true.

Definition honours_cancellation (key : string) : Prop :=
  forall E w, logging w -> flag_set key w ->
    calls (WorkflowManager.start_process E w).2 = calls w.

(** ** A concrete run

    The services of the scenario: the upload stores one image, the trend
    service is up or times out, the analysis gives two keywords, the
    generation gives a poster or answers 500, the quality service scores
    0.72 or is unreachable, and finalization gives a caption. *)

Definition example_hashtags : json :=
  JList [JStr "#puzzle"; JStr "#mobile"; JStr "#game"].

#[warnings="-inexact-float"]
Definition example_body (url : string) : json :=
  if String.eqb url "http://localhost:8001/upload/images" then
    JDict {[ "success" := JBool true;
             "assets" := JDict {[ "images" := JList [JStr "image_0.jpg"] ]};
             "uploaded_count" := JInt 1 ]}
  else if String.eqb url "http://localhost:8002/analyzes/youtube" then
    JDict {[ "trends" := JList [JStr "speedrun"];
             "hashtags" := JList [JStr "#speedrun"] ]}
  else if String.eqb url "http://localhost:8003/analyzes/drive/enhanced" then
    JDict {[ "visual_summary" := JStr "a puzzle game";
             "video_summary" := JStr "";
             "keywords" := JList [JStr "puzzle"; JStr "mobile"] ]}
  else if String.eqb url "http://localhost:8004/generate/poster" then
    JDict {[ "success" := JBool true;
             "filename" := JStr "poster_123.png";
             "image_path" := JStr "generated_images/poster_123.png" ]}
  else if String.eqb url "http://localhost:8005/quality/assess" then
    JDict {[ "quality_assessment" :=
               JDict {[ "overall_score" :=
                          JDict {[ "overall_score" := JFloat 0.72%float ]} ]} ]}
  else
    JDict {[ "finalized_content" :=
               JDict {[ "caption" := JStr "Play now";
                        "hashtags" := example_hashtags ]} ]}.

(** A network on which the services whose URL is in [timed_out] do not
    answer in time and those in [failing] answer 500. *)
Definition example_network (timed_out failing : list string) : network := fun req =>
  let url := http_url req in
  if existsb (String.eqb url) timed_out then
    Raise (Exn "ReadTimeout" "Read timed out. (read timeout=120)")
  else if existsb (String.eqb url) failing then
    Ok (Response 500 ("500 Server Error: Internal Server Error for url: " ++ url)
          (Ok (JDict {[ "detail" := JStr "failed" ]})))
  else Ok (Response 200 "" (Ok (example_body url))).

Definition example_str (v : json) : string :=
  match v with
  | JStr s => s
  | JInt z => pretty z
  | _ => "<object>"
  end.

Definition example_env (timed_out failing : list string) : env :=
  Env (client (example_network timed_out failing))
      (fun n => "12:00:" ++ pretty n) example_str (fun _ => "0.72").

Definition all_up : env := example_env [] [].
Definition trend_down : env :=
  example_env ["http://localhost:8002/analyzes/youtube"] [].
Definition analysis_down : env :=
  example_env [] ["http://localhost:8003/analyzes/drive/enhanced"].
Definition generation_down : env :=
  example_env [] ["http://localhost:8004/generate/poster"].
Definition assess_down : env :=
  example_env ["http://localhost:8005/quality/assess"] [].

Definition example_upload : operation :=
  UploadMaterials [ {| closed := false; content := [] |} ]
    (JList [JStr "puzzle"]) (JStr "a puzzle game").

(** The whole pipeline, every service up. *)
Definition completed_run : world :=
  run_ops [ (all_up, example_upload); (all_up, StartProcess);
            (all_up, GenerateContent (JStr "modern")); (all_up, AssessQuality) ]
    fresh_run.

(** An upload service that reports success and names no stored file. *)
Definition bare_upload : env :=
  Env (fun _ => Ok (JDict {[ "success" := JBool true ]}))
      (fun n => "12:00:" ++ pretty n) example_str (fun _ => "0.72").

(** The run after the upload, and after the generation. *)
Definition uploaded_run : world := run_ops [ (all_up, example_upload) ] fresh_run.

Definition generated_run : world :=
  run_ops [ (all_up, example_upload); (all_up, StartProcess);
            (all_up, GenerateContent (JStr "vintage")) ] fresh_run.

Definition processed_run : world :=
  run_ops [ (all_up, example_upload); (all_up, StartProcess) ] fresh_run.

Definition timeout_result : json :=
  JDict {[ "error" := JStr "Read timed out. (read timeout=120)";
           "success" := JBool false ]}.

(** A run whose state carries a flag under "cancelled". *)
Definition cancelled_run : world :=
  put "cancelled" (JBool true) uploaded_run.

(** What holds of the state of a run between operations: the keys of a
    reset state are there, the step is a number, and the results behind the
    step are dicts. *)
Definition good (w : world) : Prop :=
  logging w /\
  exists z vt va vg vq vf,
    workflow_state w !! "step" = Some (JInt z) /\
    workflow_state w !! "trend_data" = Some vt /\
    workflow_state w !! "analysis_data" = Some va /\
    workflow_state w !! "generation_data" = Some vg /\
    workflow_state w !! "quality_data" = Some vq /\
    workflow_state w !! "final_output" = Some vf /\
    (is_dict va = true -> is_dict vt = true) /\
    (2 <= z -> is_dict va = true) /\
    (3 <= z -> is_dict vg = true) /\
    (4 <= z -> is_dict vq = true /\ is_dict vf = true).

(** ** The session state as shared objects

    A Python list or dict is an object on the heap and a variable holds a
    reference to it.  This part models the four functions of the manager
    that read and write the status log with explicit references, so that
    what a caller does through a returned value can be followed. *)

Module Shared.

Definition loc : Type := nat.

Inductive val : Type :=
| VNone
| VInt (z : Z)
| VStr (s : string)
| VRef (l : loc).

Inductive obj : Type :=
| OList (items : list val)
| ODict (entries : gmap string val).

(** The objects alive, the next free address, and the dict that
    [st.session_state.workflow_state] refers to. *)
Record session : Type := Session {
  heap : gmap loc obj;
  next : loc;
  workflow_state : loc
}.

Definition alloc (o : obj) (s : session) : loc * session :=
  (next s, Session (<[next s := o]> (heap s)) (S (next s)) (workflow_state s)).

Definition reset_workflow_state (s : session) : session :=
  let '(uploaded_files, s1) := alloc (OList []) s in
  let '(status_logs, s2) := alloc (OList []) s1 in
  let '(state, s3) :=
    alloc (ODict {[ "step" := VInt 0;
                    "trend_data" := VNone;
                    "analysis_data" := VNone;
                    "generation_data" := VNone;
                    "quality_data" := VNone;
                    "uploaded_files" := VRef uploaded_files;
                    "status_logs" := VRef status_logs;
                    "final_output" := VNone ]}) s2 in
  Session (heap s3) (next s3) state.

(** [workflow_state['status_logs'].append(log_entry)]; [None] when a
    lookup raises. *)
Definition add_status_log (timestamp message status : string) (s : session)
  : option session :=
  let '(log_entry, s1) :=
    alloc (ODict {[ "time" := VStr timestamp;
                    "message" := VStr message;
                    "status" := VStr status ]}) s in
  match heap s1 !! workflow_state s1 with
  | Some (ODict state) =>
      match state !! "status_logs" with
      | Some (VRef l) =>
          match heap s1 !! l with
          | Some (OList items) =>
              Some (Session (<[l := OList (items ++ [VRef log_entry])]> (heap s1))
                            (next s1) (workflow_state s1))
          | _ => None
          end
      | _ => None
      end
  | _ => None
  end.

(** [workflow_state.get('status_logs', [])]: the default list is built
    before the lookup. *)
Definition get_status_logs (s : session) : val * session :=
  let '(empty, s1) := alloc (OList []) s in
  match heap s1 !! workflow_state s1 with
  | Some (ODict state) => (default (VRef empty) (state !! "status_logs"), s1)
  | _ => (VNone, s1)
  end.

(** [workflow_state.get(key)] *)
Definition get_workflow_data (key : string) (s : session) : val :=
  match heap s !! workflow_state s with
  | Some (ODict state) => default VNone (state !! key)
  | _ => VNone
  end.

(** What a caller can do with a list it was handed: [v.append(x)] and
    [v.clear()]. *)
Definition list_append (v x : val) (s : session) : option session :=
  match v with
  | VRef l =>
      match heap s !! l with
      | Some (OList items) =>
          Some (Session (<[l := OList (items ++ [x])]> (heap s)) (next s)
                        (workflow_state s))
      | _ => None
      end
  | _ => None
  end.

Definition list_clear (v : val) (s : session) : option session :=
  match v with
  | VRef l =>
      match heap s !! l with
      | Some (OList _) =>
          Some (Session (<[l := OList []]> (heap s)) (next s) (workflow_state s))
      | _ => None
      end
  | _ => None
  end.

(** The items of the list a value refers to. *)
Definition items_of (v : val) (s : session) : option (list val) :=
  match v with
  | VRef l =>
      match heap s !! l with
      | Some (OList items) => Some items
      | _ => None
      end
  | _ => None
  end.

(** The status log as a later read sees it. *)
Definition read_status_logs (s : session) : option (list val) :=
  items_of (get_workflow_data "status_logs" s) s.

(** The reads hand out copies: a change made through the value returned
    is not seen by a later read. *)
Definition reads_return_copies : Prop :=
  forall (s : session) (x : val) (s' : session),
    list_append (get_workflow_data "status_logs" s) x s = Some s' ->
    read_status_logs s' = read_status_logs s.

Definition empty_session : session := Session ∅ 0%nat 0%nat.

Definition reset_session : session := reset_workflow_state empty_session.

End Shared.

(** ** The rest of the client: health probes, the two other JSON
    methods and the image download *)

Module MicroserviceClientRest.

(** [list(self.services.keys())], in the order of the dict literal. *)
Definition service_names : list string :=
  ["upload"; "analysis"; "trend"; "generation"; "quality"].

Definition check_service_health (net : network) (service_name : string)
  : PyResult bool :=
  try_catch
    (base ← py_getitem MicroserviceClient.services service_name;
     let url := base ++ "/health" in
     response ← requests_get net url 5;
     Ok (status_code response =? 200))
    (fun _ => Ok false).

(** The loop of [check_all_services] over the names still to probe. *)
Fixpoint check_each (net : network) (names : list string)
    (health_status : gmap string bool) : PyResult (gmap string bool) :=
  match names with
  | [] => Ok health_status
  | service_name :: rest =>
      healthy ← check_service_health net service_name;
      check_each net rest (<[service_name := healthy]> health_status)
  end.

Definition check_all_services (net : network) : PyResult (gmap string bool) :=
  check_each net service_names ∅.

Definition analyze_text_keywords (net : network) (title description keywords : json)
  : PyResult json :=
  try_catch
    (base ← py_getitem MicroserviceClient.services "analysis";
     let url := base ++ "/analyzes/text/keywords" in
     let request_data :=
       JDict {[ "title" := title;
                "description" := description;
                "keywords" := py_or keywords (JList []) ]} in
     MicroserviceClient.checked_json
       (requests_post net url (JsonBody request_data) ∅ MicroserviceClient.timeout))
    (fun e => Ok (MicroserviceClient.error_result e)).

Definition get_generation_styles (net : network) : PyResult json :=
  try_catch
    (base ← py_getitem MicroserviceClient.services "generation";
     let url := base ++ "/generate/poster/styles" in
     MicroserviceClient.checked_json
       (requests_get net url MicroserviceClient.timeout))
    (fun e => Ok (MicroserviceClient.error_result e)).

(** A response read as bytes: [response.content] beside the status. *)
Record binary_response : Type := BinaryResponse {
  status_line : response;
  response_content : bytes
}.

Definition binary_network : Type := http_request -> PyResult binary_response.

(** [download_generated_image]: the bytes, and the message given to
    [st.error] when there is one. *)
Definition download_generated_image (net : binary_network) (filename : string)
  : PyResult (bytes * option string) :=
  try_catch
    (base ← py_getitem MicroserviceClient.services "generation";
     let url := base ++ "/generate/poster/download/" ++ filename in
     response ← net (HttpRequest "GET" url NoPayload ∅ MicroserviceClient.timeout);
     _ ← raise_for_status (status_line response);
     Ok (response_content response, None))
    (fun e => Ok ([], Some ("Görsel indirilemedi: " ++ exn_msg e))).

End MicroserviceClientRest.

(** [WorkflowManager.check_services_health] *)
Definition check_services_health (net : network) : PyResult (gmap string bool) :=
  MicroserviceClientRest.check_all_services net.

(** The request behind a health probe. *)
Definition health_request (base : string) : http_request :=
  HttpRequest "GET" (base ++ "/health") NoPayload ∅ 5.

(** The requests of the two other JSON methods and of the download. *)
Definition text_keywords_request (title description keywords : json) : http_request :=
  HttpRequest "POST" "http://localhost:8003/analyzes/text/keywords"
    (JsonBody (JDict {[ "title" := title;
                        "description" := description;
                        "keywords" := py_or keywords (JList []) ]}))
    ∅ 120.

Definition styles_request : http_request :=
  HttpRequest "GET" "http://localhost:8004/generate/poster/styles" NoPayload ∅ 120.

Definition download_request (filename : string) : http_request :=
  HttpRequest "GET" ("http://localhost:8004/generate/poster/download/" ++ filename)
    NoPayload ∅ 120.

(** A status that [raise_for_status] lets through. *)
Definition status_passes (status : Z) : Prop := status < 400 \/ 600 <= status.

(** A quality service whose finalize answer names a number of hashtags
    where the list should be. *)
Definition hashtag_count_only : env :=
  Env (fun c =>
         match c with
         | FinalizeContent _ _ _ _ _ =>
             Ok (JDict {[ "finalized_content" :=
                            JDict {[ "caption" := JStr "Play now";
                                     "hashtags" := JInt 7 ]} ]})
         | _ => client (example_network [] []) c
         end)
      (fun n => "12:00:" ++ pretty n) example_str (fun _ => "0.72").

(** ** The rest of the manager and the guards of the page

    [is_upload_completed] of the manager, and the tests with which
    [app.py] disables the Process, Generate and Quality buttons. *)

(** [v < n] for an int [n] small enough to be a float exactly: numbers
    compare, the rest raise. *)
Definition py_lt_int (v : json) (n : Z) : PyResult bool :=
  match v with
  | JInt z => Ok (z <? n)
  | JBool b => Ok ((if b then 1 else 0) <? n)
  | JFloat f => Ok (PrimFloat.ltb f (PrimFloat.of_uint63 (Uint63.of_Z n)))
  | _ => Raise (Exn "TypeError" "'<' not supported between these instances")
  end.

(** [v > n], likewise. *)
Definition py_gt_int (v : json) (n : Z) : PyResult bool :=
  match v with
  | JInt z => Ok (n <? z)
  | JBool b => Ok (n <? (if b then 1 else 0))
  | JFloat f => Ok (PrimFloat.ltb (PrimFloat.of_uint63 (Uint63.of_Z n)) f)
  | _ => Raise (Exn "TypeError" "'>' not supported between these instances")
  end.

(** [n < v] for an int [n], likewise. *)
Definition py_int_lt (n : Z) (v : json) : PyResult bool :=
  match v with
  | JInt z => Ok (n <? z)
  | JBool b => Ok (n <? (if b then 1 else 0))
  | JFloat f => Ok (PrimFloat.ltb (PrimFloat.of_uint63 (Uint63.of_Z n)) f)
  | _ => Raise (Exn "TypeError" "'<' not supported between these instances")
  end.

(** [n == v] for an int [n]: never raises. *)
Definition py_eq_int (v : json) (n : Z) : bool :=
  match v with
  | JInt z => z =? n
  | JBool b => (if b then 1 else 0) =? n
  | JFloat f => PrimFloat.eqb f (PrimFloat.of_uint63 (Uint63.of_Z n))
  | _ => false
  end.

(** [len(v) > 0] and [len(v) == 0] *)
Definition py_nonempty (v : json) : PyResult bool :=
  n ← py_len v;
  match n with
  | JInt z => Ok (0 <? z)
  | _ => Ok false
  end.

Definition py_empty (v : json) : PyResult bool :=
  n ← py_len v;
  match n with
  | JInt z => Ok (z =? 0)
  | _ => Ok false
  end.

Module WorkflowManagerRest.

(** [current_step > step] *)
Definition is_step_completed (step : Z) : M bool :=
  current_step ← WorkflowManager.get_current_step;
  lift (py_gt_int current_step step).

(** [len(uploaded_files) > 0 and len(keywords) > 0] *)
Definition is_upload_completed : M bool :=
  uploaded_files ← state_get "uploaded_files" (JList []);
  keywords ← state_get "keywords" (JList []);
  some_files ← lift (py_nonempty uploaded_files);
  if (some_files : bool) then lift (py_nonempty keywords) else mret false.

End WorkflowManagerRest.

Module App.

(** [len(uploaded_files) == 0 or len(keywords) == 0], read from the
    session state. *)
Definition process_disabled : M bool :=
  uploaded_files ← state_get "uploaded_files" (JList []);
  keywords ← state_get "keywords" (JList []);
  no_files ← lift (py_empty uploaded_files);
  if (no_files : bool) then mret true else lift (py_empty keywords).

(** [current_step < 2] *)
Definition generate_disabled : M bool :=
  current_step ← WorkflowManager.get_current_step;
  lift (py_lt_int current_step 2).

(** [current_step < 3] *)
Definition quality_disabled : M bool :=
  current_step ← WorkflowManager.get_current_step;
  lift (py_lt_int current_step 3).

(** The Progress sidebar: [st.success], [st.info] or [st.text] for each
    step. *)
Inductive mark : Type := Completed | Current | Waiting.

Definition steps : list string := ["Upload"; "Process"; "Generate"; "Quality"].

(** [for i, step in enumerate(steps)], from index [i] on: [i < current_step]
    is tested first, then [i == current_step]. *)
Fixpoint progress_from (i : Z) (steps : list string) (current_step : json)
  : PyResult (list (string * mark)) :=
  match steps with
  | [] => Ok []
  | step :: rest =>
      before ← py_int_lt i current_step;
      let shown :=
        if (before : bool) then Completed
        else if py_eq_int current_step i then Current else Waiting in
      marks ← progress_from (i + 1) rest current_step;
      Ok ((step, shown) :: marks)
  end.

Definition progress : M (list (string * mark)) :=
  current_step ← WorkflowManager.get_current_step;
  lift (progress_from 0 steps current_step).

(** The class of the container of step [k]: [current_step == k] is tested
    first, then [current_step > k]. *)
Definition step_class (k : Z) (current_step : json) : PyResult string :=
  let step_class := "step-container" in
  if py_eq_int current_step k then Ok (step_class ++ " step-active")
  else
    completed ← py_gt_int current_step k;
    if (completed : bool) then Ok (step_class ++ " step-completed")
    else Ok step_class.

(** The preview of the files chosen: [cols = st.columns(min(len(uploaded_files), 4))]
    and, for the file at index [i], [cols[i % 4]]; a column is its index. *)
Definition preview_column {A} (uploaded_files : list A) (i : nat) : PyResult nat :=
  let cols := seq 0 (Nat.min (length uploaded_files) 4) in
  let col_idx := (i mod 4)%nat in
  match cols !! col_idx with
  | Some col => Ok col
  | None => Raise (Exn "IndexError" "list index out of range")
  end.

(** [for i, uploaded_file in enumerate(uploaded_files)], from index [i] on. *)
Fixpoint preview_from {A} (uploaded_files : list A) (i : nat) (rest : list A)
  : PyResult (list nat) :=
  match rest with
  | [] => Ok []
  | _ :: rest =>
      col ← preview_column uploaded_files i;
      cols ← preview_from uploaded_files (S i) rest;
      Ok (col :: cols)
  end.

(** [if uploaded_files: ...]: the column each file is shown in. *)
Definition preview {A} (uploaded_files : list A) : PyResult (list nat) :=
  match uploaded_files with
  | [] => Ok []
  | _ => preview_from uploaded_files 0 uploaded_files
  end.

(** The three metrics of the final section: the score as [f"{quality_score:.2f}"]
    and [len(hashtags)]; [None] when there is no final output. *)
Definition final_metrics (E : env) : M (option (string * json)) :=
  final_output ← WorkflowManager.get_workflow_data "final_output";
  if truthy final_output then
    finalize_result ← lift (py_get final_output "finalized_content" (JDict ∅));
    finalized_content ← lift (py_get finalize_result "finalized_content" (JDict ∅));
    quality_score ← lift (py_get final_output "quality_score" (JInt 0));
    shown ← lift (py_format_2f E quality_score);
    hashtags ← lift (py_get finalized_content "hashtags" (JList []));
    hashtag_count ← lift (py_len hashtags);
    mret (Some (shown, hashtag_count))
  else mret None.

End App.

(** The images an upload answer names: [get('assets', {}).get('images', [])]. *)
Definition images_of (upload_result : gmap string json) : PyResult json :=
  py_get (default (JDict ∅) (upload_result !! "assets")) "images" (JList []).

(** [len(images) > 0 and len(keywords) > 0] on given values. *)
Definition both_nonempty (images keywords : json) : PyResult bool :=
  some_files ← py_nonempty images;
  if (some_files : bool) then py_nonempty keywords else Ok false.

(** The trends of a trend answer. *)
Definition trends_of (r : json) : json :=
  match r with
  | JDict d => default (JList []) (d !! "trends")
  | _ => JList []
  end.

(** The trends of a Generate call are the first five at most. *)
Definition trends_capped (c : call) : Prop :=
  match c with
  | GenerateInstagramContent _ _ _ trends _ =>
      match trends with
      | JList l => (length l <= 5)%nat
      | JStr s => (utf8_length s <= 5)%nat
      | _ => False
      end
  | _ => True
  end.

(** ** The keywords typed into the page

    [app.py] turns the text of the keywords field into the list given to
    [upload_materials]:
    [[k.strip() for k in keywords_input.split(",") if k.strip()]].
    A Python [str] is a sequence of code points, and [strip] removes the
    code points that [str.isspace] accepts. *)

Module KeywordsInput.

#[local] Open Scope list_scope.

Definition text : Type := list N.

Definition comma : N := 44%N.

(** The white space of [str.strip()]. *)
Definition is_space (c : N) : bool :=
  ((9 <=? c) && (c <=? 13) || (28 <=? c) && (c <=? 32)
   || (c =? 133) || (c =? 160) || (c =? 5760)
   || (8192 <=? c) && (c <=? 8202)
   || (c =? 8232) || (c =? 8233) || (c =? 8239) || (c =? 8287)
   || (c =? 12288))%N.

(** [s.split(",")] *)
Fixpoint split_comma (s : text) : list text :=
  match s with
  | [] => [[]]
  | c :: rest =>
      if (c =? comma)%N then [] :: split_comma rest
      else match split_comma rest with
           | piece :: pieces => (c :: piece) :: pieces
           | [] => [[c]]
           end
  end.

Fixpoint lstrip (s : text) : text :=
  match s with
  | [] => []
  | c :: rest => if is_space c then lstrip rest else s
  end.

Definition rstrip (s : text) : text := rev (lstrip (rev s)).

(** [s.strip()] *)
Definition strip (s : text) : text := rstrip (lstrip s).

Definition nonempty (s : text) : bool :=
  match s with [] => false | _ => true end.

Definition parse_keywords (keywords_input : text) : list text :=
  filter (fun k => nonempty k = true) (map strip (split_comma keywords_input)).

(** [not uploaded_files or not keywords_input] *)
Definition upload_disabled (uploaded_files : nat) (keywords_input : text) : bool :=
  (uploaded_files =? 0)%nat || negb (nonempty keywords_input).

(** [", ".join(keywords)] *)
Fixpoint join_comma (keywords : list text) : text :=
  match keywords with
  | [] => []
  | [k] => k
  | k :: rest => (k ++ comma :: 32%N :: join_comma rest)%list
  end.

(** A keyword as [parse_keywords] gives them: not empty, no comma, no
    white space at either end. *)
Definition clean (k : text) : Prop :=
  k ≠ [] /\ (comma ∉ k) /\
  (forall c, head k = Some c -> is_space c = false) /\
  (forall c, last k = Some c -> is_space c = false).

(** Nothing but commas and white space. *)
Definition blank (s : text) : Prop :=
  Forall (fun c => c = comma \/ is_space c = true) s.

End KeywordsInput.

(** ** The route of the trend service

    [youtube_trends] of [service_trend/routes/analyzes_routes.py]; the
    agent's [get_youtube_trends] is the YouTube API and is given. *)

Module TrendRoute.

Definition youtube_trends (get_youtube_trends : string -> PyResult json)
  : PyResult json :=
  try_catch
    (let api_key := "YOUR_YOUTUBE_API_KEY_HERE" in
     if String.eqb api_key "YOUR_YOUTUBE_API_KEY_HERE" || negb (truthy (JStr api_key))
     then
       let mock_trends :=
         JList [JStr "AI Technology"; JStr "Gaming Setup"; JStr "Content Creation";
                JStr "Digital Art"] in
       let mock_hashtags :=
         JList [JStr "#AI"; JStr "#Technology"; JStr "#Gaming";
                JStr "#ContentCreator"] in
       Ok (JDict {[ "platform" := JStr "youtube";
                    "trends" := mock_trends;
                    "hashtags" := mock_hashtags;
                    "status" := JStr "success";
                    "data_source" := JStr "mock_data" ]})
     else
       trends ← get_youtube_trends api_key;
       Ok (JDict {[ "platform" := JStr "youtube";
                    "trends" := trends;
                    "status" := JStr "success" ]}))
    (fun e =>
       Ok (JDict {[ "platform" := JStr "youtube";
                    "trends" := JList [JStr "AI Technology"; JStr "Gaming Setup";
                                       JStr "Content Creation"];
                    "hashtags" := JList [JStr "#AI"; JStr "#Technology";
                                         JStr "#Gaming"];
                    "status" := JStr "error";
                    "error" := JStr (exn_msg e);
                    "data_source" := JStr "fallback" ]})).

End TrendRoute.

(** * Properties *)

(** ** The gateways never raise *)

Lemma client_cases (net : network) (c : call) :
  (exists v, client net c = Ok v) /\
  (forall e, net_failure (net (request_of c)) = Some e ->
     client net c = Ok (JDict {[ "error" := JStr (exn_msg e);
                                 "success" := JBool false ]})).
Proof.
  assert (Hbody : forall r,
    (exists v, try_catch (MicroserviceClient.checked_json r)
                 (fun e => Ok (MicroserviceClient.error_result e)) = Ok v) /\
    (forall e, net_failure r = Some e ->
       try_catch (MicroserviceClient.checked_json r)
         (fun e => Ok (MicroserviceClient.error_result e))
       = Ok (MicroserviceClient.error_result e))).
  { intros r. unfold MicroserviceClient.checked_json, net_failure.
    destruct r as [resp|e0]; simpl.
    - destruct (raise_for_status resp) as [[]|e1]; simpl.
      + destruct (json_body resp) as [v|e2]; simpl.
        * split; [eauto | discriminate].
        * split; [eauto | intros e [= <-]; reflexivity].
      + split; [eauto | intros e [= <-]; reflexivity].
    - split; [eauto | intros e [= <-]; reflexivity]. }
  destruct c; apply Hbody.
Qed.

(** C5: no method of the client raises: on every network and every call
    it returns a value, and when the request fails (the transport raises,
    the status is 4xx or 5xx, or the body is not JSON) that value is the
    dict with the failure's message under "error" and False under
    "success". *)
Theorem client_never_raises (net : network) (c : call) :
  (exists v, client net c = Ok v) /\
  (forall e, net_failure (net (request_of c)) = Some e ->
     client net c = Ok (JDict {[ "error" := JStr (exn_msg e);
                                 "success" := JBool false ]})).
Proof. apply client_cases. Qed.

(** A failure with a message is what the manager takes for an error. *)
Lemma client_failure_has_error (net : network) (c : call) (e : exn) :
  net_failure (net (request_of c)) = Some e ->
  exn_msg e ≠ "" ->
  exists r, client net c = Ok r /\ has_error r = true.
Proof.
  intros Hfail Hmsg.
  destruct (client_cases net c) as [_ Herr].
  eexists. split; [apply Herr, Hfail|].
  unfold has_error. rewrite lookup_insert_eq. simpl.
  destruct (String.eqb_spec (exn_msg e) ""); [contradiction | reflexivity].
Qed.
(** ** Stepping through a computation *)

Section Exec.
Context {A B : Type}.

Lemma bind_eq (m : M A) (k : A -> M B) (w : world) :
  (m ≫= k) w =
  match m w with
  | (Ok a, w') => k a w'
  | (Raise e, w') => (Raise e, w')
  end.
Proof. reflexivity. Qed.

Lemma ret_eq (a : A) (w : world) : (mret a : M A) w = (Ok a, w).
Proof. reflexivity. Qed.

Lemma lift_eq (r : PyResult A) (w : world) : lift r w = (r, w).
Proof. reflexivity. Qed.

Lemma try_eq (m : M A) (h : exn -> M A) (w : world) :
  try_except m h w =
  match m w with
  | (Ok a, w') => (Ok a, w')
  | (Raise e, w') => h e w'
  end.
Proof. reflexivity. Qed.

End Exec.

Lemma state_get_eq (k : string) (d : json) (w : world) :
  state_get k d w = (Ok (default d (workflow_state w !! k)), w).
Proof. reflexivity. Qed.

Lemma state_set_eq (k : string) (v : json) (w : world) :
  state_set k v w = (Ok tt, put k v w).
Proof. reflexivity. Qed.

Lemma invoke_eq (E : env) (c : call) (w : world) :
  invoke E c w = (gw E c, called c w).
Proof. reflexivity. Qed.

Lemma add_status_log_eq (E : env) (m s : string) (w : world) :
  logging w -> WorkflowManager.add_status_log E m s w = (Ok tt, logged E m s w).
Proof.
  intros [l Hl].
  unfold WorkflowManager.add_status_log, logged, status_logs, put.
  rewrite Hl. reflexivity.
Qed.

(** What is kept by the three effects. *)

Lemma logging_put (k : string) (v : json) (w : world) :
  k ≠ "status_logs" -> logging w -> logging (put k v w).
Proof.
  intros Hk [l Hl]. exists l. unfold put; simpl.
  by rewrite lookup_insert_ne.
Qed.

Lemma logging_called (c : call) (w : world) : logging w -> logging (called c w).
Proof. intros H; exact H. Qed.

Lemma logging_logged (E : env) (m s : string) (w : world) :
  logging (logged E m s w).
Proof. unfold logged, put, logging; simpl. eexists. apply lookup_insert_eq. Qed.

Lemma logging_fresh : logging fresh_run.
Proof. exists []. reflexivity. Qed.

Create HintDb run discriminated.
#[local] Hint Resolve logging_put logging_called logging_logged logging_fresh : run.
#[local] Hint Extern 1 (_ ≠ _) => discriminate : run.

Lemma status_logs_put (k : string) (v : json) (w : world) :
  k ≠ "status_logs" -> status_logs (put k v w) = status_logs w.
Proof. intros Hk. unfold status_logs, put; simpl. by rewrite lookup_insert_ne. Qed.

Lemma status_logs_called (c : call) (w : world) :
  status_logs (called c w) = status_logs w.
Proof. reflexivity. Qed.

Lemma status_logs_logged (E : env) (m s : string) (w : world) :
  status_logs (logged E m s w) =
  (status_logs w ++
   [WorkflowManager.log_entry (strftime E (length (status_logs w))) m s])%list.
Proof. unfold logged, status_logs at 1, put; simpl. by rewrite lookup_insert_eq. Qed.

Lemma field_put_eq (k : string) (v : json) (w : world) : field k (put k v w) = v.
Proof. unfold field, put; simpl. by rewrite lookup_insert_eq. Qed.

Lemma field_put_ne (k k' : string) (v : json) (w : world) :
  k ≠ k' -> field k' (put k v w) = field k' w.
Proof. intros Hk. unfold field, put; simpl. by rewrite lookup_insert_ne. Qed.

Lemma get_step_field (w : world) : get_step w = field "step" w.
Proof. reflexivity. Qed.

(** ** Relations kept by every step of a computation *)

Section Preserves.
Context (R : relation world) `{!PreOrder R}.

Lemma preserves_ret {A} (a : A) : preserves R (mret a : M A).
Proof. intros w r w' [= _ <-]. reflexivity. Qed.

Lemma preserves_lift {A} (r : PyResult A) : preserves R (lift r).
Proof. intros w r' w' [= _ <-]. reflexivity. Qed.

Lemma preserves_state_get (k : string) (d : json) : preserves R (state_get k d).
Proof. intros w r w' [= _ <-]. reflexivity. Qed.

Lemma preserves_bind {A B} (m : M A) (k : A -> M B) :
  preserves R m -> (forall a, preserves R (k a)) -> preserves R (m ≫= k).
Proof.
  intros Hm Hk w r w'. rewrite bind_eq.
  destruct (m w) as [[a|e] w1] eqn:Hmw; intros Hrun.
  - transitivity w1; [eapply Hm | eapply Hk]; eassumption.
  - injection Hrun as _ <-. eapply Hm; eassumption.
Qed.

Lemma preserves_try {A} (m : M A) (h : exn -> M A) :
  preserves R m -> (forall e, preserves R (h e)) -> preserves R (try_except m h).
Proof.
  intros Hm Hh w r w'. rewrite try_eq.
  destruct (m w) as [[a|e] w1] eqn:Hmw; intros Hrun.
  - injection Hrun as _ <-. eapply Hm; eassumption.
  - transitivity w1; [eapply Hm | eapply Hh]; eassumption.
Qed.

Lemma preserves_if {A} (b : bool) (m1 m2 : M A) :
  preserves R m1 -> preserves R m2 -> preserves R (if b then m1 else m2).
Proof. by destruct b. Qed.

End Preserves.

#[local] Instance log_extends_preorder : PreOrder log_extends.
Proof.
  split.
  - intros w Hw. split; [exact Hw | reflexivity].
  - intros w1 w2 w3 H12 H23 Hw.
    destruct (H12 Hw) as [Hw2 Hp12]. destruct (H23 Hw2) as [Hw3 Hp23].
    split; [exact Hw3 | by transitivity (status_logs w2)].
Qed.

#[local] Instance step_kept_or_preorder (t : Z) : PreOrder (step_kept_or t).
Proof.
  split.
  - intros w. by left.
  - intros w1 w2 w3 [H12|H12] [H23|H23]; unfold step_kept_or;
      rewrite ?H23, ?H12; auto.
Qed.

#[local] Instance calls_extend_preorder (P : call -> Prop) : PreOrder (calls_extend P).
Proof.
  split.
  - intros w. exists []. split; [by rewrite app_nil_r | constructor].
  - intros w1 w2 w3 (n1 & H1 & F1) (n2 & H2 & F2).
    exists (n1 ++ n2)%list. split.
    + by rewrite H2, H1, app_assoc.
    + by apply Forall_app.
Qed.

(** The status log under each effect. *)

Lemma log_extends_set (k : string) (v : json) :
  k ≠ "status_logs" -> preserves log_extends (state_set k v).
Proof.
  intros Hk w r w'. rewrite state_set_eq. intros [= _ <-] Hw. split.
  - by apply logging_put.
  - by rewrite status_logs_put.
Qed.

Lemma log_extends_invoke (E : env) (c : call) : preserves log_extends (invoke E c).
Proof. intros w r w' [= _ <-] Hw. split; [exact Hw | reflexivity]. Qed.

Lemma log_extends_log (E : env) (m s : string) :
  preserves log_extends (WorkflowManager.add_status_log E m s).
Proof.
  intros w r w' Hrun Hw. rewrite add_status_log_eq in Hrun by exact Hw.
  injection Hrun as _ <-. split.
  - apply logging_logged.
  - rewrite status_logs_logged. by apply prefix_app_r.
Qed.

(** The step under each effect. *)

Lemma step_kept_set (t : Z) (k : string) (v : json) :
  k ≠ "step" -> preserves (step_kept_or t) (state_set k v).
Proof.
  intros Hk w r w'. rewrite state_set_eq. intros [= _ <-]. left.
  rewrite !get_step_field. by apply field_put_ne.
Qed.

Lemma step_kept_target (t : Z) : preserves (step_kept_or t) (state_set "step" (JInt t)).
Proof.
  intros w r w'. rewrite state_set_eq. intros [= _ <-]. right.
  rewrite get_step_field. apply field_put_eq.
Qed.

Lemma step_kept_invoke (t : Z) (E : env) (c : call) :
  preserves (step_kept_or t) (invoke E c).
Proof. intros w r w' [= _ <-]. by left. Qed.

Lemma step_kept_log (t : Z) (E : env) (m s : string) :
  preserves (step_kept_or t) (WorkflowManager.add_status_log E m s).
Proof.
  intros w r w'. unfold WorkflowManager.add_status_log.
  destruct (workflow_state w !! "status_logs") as [[]|] eqn:Hl;
    intros [= _ <-]; left; try reflexivity.
  unfold get_step; simpl. by rewrite lookup_insert_ne.
Qed.

(** The calls under each effect. *)

Lemma calls_extend_set (P : call -> Prop) (k : string) (v : json) :
  preserves (calls_extend P) (state_set k v).
Proof.
  intros w r w' [= _ <-]. exists []. simpl.
  split; [by rewrite app_nil_r | constructor].
Qed.

Lemma calls_extend_invoke (P : call -> Prop) (E : env) (c : call) :
  P c -> preserves (calls_extend P) (invoke E c).
Proof.
  intros Hc w r w' [= _ <-]. exists [c]. split; [reflexivity | by constructor].
Qed.

Lemma calls_extend_log (P : call -> Prop) (E : env) (m s : string) :
  preserves (calls_extend P) (WorkflowManager.add_status_log E m s).
Proof.
  intros w r w'. unfold WorkflowManager.add_status_log.
  destruct (workflow_state w !! "status_logs") as [[]|];
    intros [= _ <-]; exists []; simpl;
    (split; [by rewrite app_nil_r | constructor]).
Qed.

#[local] Hint Resolve log_extends_set log_extends_invoke log_extends_log
  step_kept_set step_kept_target step_kept_invoke step_kept_log
  calls_extend_set calls_extend_invoke calls_extend_log : run.

(** Goes through a computation built from binds, handlers and tests,
    leaving its effects to the hints. *)
Ltac preserve :=
  repeat first
    [ apply preserves_try; [typeclasses eauto | | intros ?]
    | apply preserves_bind; [typeclasses eauto | | intros ?]
    | apply preserves_if
    | apply preserves_ret; typeclasses eauto
    | apply preserves_lift; typeclasses eauto
    | apply preserves_state_get; typeclasses eauto
    | solve [eauto with run] ].


Ltac unfold_ops :=
  unfold run_op, WorkflowManager.upload_materials, WorkflowManager.start_process,
    WorkflowManager.generate_content, WorkflowManager.assess_quality.

Lemma run_op_log_extends (E : env) (op : operation) :
  preserves log_extends (run_op E op).
Proof. destruct op; unfold_ops; preserve. Qed.

Lemma run_op_step_kept (E : env) (op : operation) :
  preserves (step_kept_or (target op)) (run_op E op).
Proof. destruct op; unfold_ops; preserve. Qed.

Lemma assess_quality_calls (E : env) :
  preserves (calls_extend finalize_constants) (WorkflowManager.assess_quality E).
Proof. unfold_ops; preserve; apply calls_extend_invoke; simpl; auto. Qed.

(** An operation opens with an entry and closes its handler with one. *)
Lemma guarded_run (E : env) (m0 s0 : string) (rest : M bool)
    (hmsg : exn -> string) (w : world) :
  logging w ->
  preserves log_extends rest ->
  exists b w1 new,
    try_except (WorkflowManager.add_status_log E m0 s0 ≫= λ _, rest)
      (fun e => WorkflowManager.add_status_log E (hmsg e) "error" ≫= λ _, mret false) w
    = (Ok b, w1)
    /\ logging w1
    /\ new ≠ []
    /\ status_logs w1 = (status_logs w ++ new)%list.
Proof.
  intros Hw Hrest.
  rewrite try_eq, bind_eq, add_status_log_eq by exact Hw.
  destruct (rest (logged E m0 s0 w)) as [[b|e] w2] eqn:Hrun;
    destruct (Hrest _ _ _ Hrun (logging_logged _ _ _ _)) as [Hw2 [k Hk]];
    rewrite status_logs_logged in Hk.
  - exists b, w2. eexists (_ :: k). split; [reflexivity|]. split; [exact Hw2|].
    split; [discriminate|]. by rewrite Hk, <- app_assoc.
  - rewrite bind_eq, add_status_log_eq by exact Hw2.
    exists false, (logged E (hmsg e) "error" w2). eexists (_ :: k ++ [_])%list.
    split; [reflexivity|]. split; [apply logging_logged|].
    split; [discriminate|].
    rewrite (status_logs_logged E (hmsg e)), Hk.
    by rewrite <- !app_assoc.
Qed.

Lemma run_op_returns (E : env) (op : operation) (w : world) :
  logging w ->
  exists b w1 new,
    run_op E op w = (Ok b, w1) /\ logging w1 /\ new ≠ [] /\
    status_logs w1 = (status_logs w ++ new)%list.
Proof.
  intros Hw.
  destruct op; unfold_ops; (apply guarded_run; [exact Hw | preserve]).
Qed.

(** ** Reading the state after the effects *)

Lemma lookup_put_eq (k : string) (v : json) (w : world) :
  workflow_state (put k v w) !! k = Some v.
Proof. unfold put; simpl. apply lookup_insert_eq. Qed.

Lemma lookup_put_ne (k k' : string) (v : json) (w : world) :
  k ≠ k' -> workflow_state (put k v w) !! k' = workflow_state w !! k'.
Proof. intros Hk. unfold put; simpl. by apply lookup_insert_ne. Qed.

Lemma lookup_called (k : string) (c : call) (w : world) :
  workflow_state (called c w) !! k = workflow_state w !! k.
Proof. reflexivity. Qed.

Lemma lookup_logged (E : env) (k m s : string) (w : world) :
  "status_logs" ≠ k ->
  workflow_state (logged E m s w) !! k = workflow_state w !! k.
Proof. intros Hk. unfold logged. by apply lookup_put_ne. Qed.

Lemma has_error_get (r : json) :
  has_error r = true -> py_get r "error" JNull = Ok (error_of r).
Proof. by destruct r. Qed.

Lemma has_error_truthy (r : json) :
  has_error r = true -> truthy (error_of r) = true.
Proof. by destruct r. Qed.

Lemma has_error_item (r : json) :
  has_error r = true -> py_item r "error" = Ok (error_of r).
Proof.
  destruct r; try discriminate. simpl.
  by destruct (d !! "error").
Qed.

Lemma succeeded_get (r : json) :
  succeeded r = true -> py_get r "error" JNull = Ok (error_of r).
Proof. by destruct r. Qed.

Lemma succeeded_truthy (r : json) :
  succeeded r = true -> truthy (error_of r) = false.
Proof. destruct r; try discriminate. simpl. by destruct (truthy _). Qed.

Ltac look :=
  repeat first
    [ rewrite lookup_put_eq
    | rewrite lookup_put_ne by discriminate
    | rewrite lookup_logged by discriminate
    | rewrite lookup_called ].

Ltac mstep :=
  first [ rewrite try_eq | rewrite bind_eq | rewrite ret_eq | rewrite lift_eq
        | rewrite state_get_eq | rewrite state_set_eq | rewrite invoke_eq
        | rewrite add_status_log_eq by eauto 20 with run ];
  cbv beta iota zeta.

Lemma py_get_dict (m : gmap string json) (k : string) (d : json) :
  py_get (JDict m) k d = Ok (default d (m !! k)).
Proof. reflexivity. Qed.

Lemma default_Some {A} (d x : A) : default d (Some x) = x.
Proof. reflexivity. Qed.

Ltac use_facts :=
  match goal with
  | H : ?x = Ok _ |- context [?x] => rewrite H
  | H : ?x = Some _ |- context [?x] => rewrite H
  | |- context [py_get (JDict _) _ _] => rewrite py_get_dict
  | |- context [default _ (Some _)] => rewrite default_Some
  | H : truthy ?x = _ |- context [truthy ?x] => rewrite H
  end; cbv beta iota zeta.

Ltac run := repeat first [ mstep | progress look | use_facts ].

Ltac logs :=
  repeat first
    [ rewrite status_logs_logged
    | rewrite status_logs_put by discriminate
    | rewrite status_logs_called ];
  rewrite <- ?app_assoc.

Lemma sized_keywords (r : json) :
  succeeded r = true -> sized (analysis_keywords r) = true ->
  exists n, py_get r "keywords" (JList []) = Ok (analysis_keywords r)
            /\ py_len (analysis_keywords r) = Ok n.
Proof.
  destruct r; try discriminate. unfold sized. simpl.
  destruct (py_len _); try discriminate. eauto.
Qed.

(** C1: when the trend gateway returns an error and the analysis gateway
    then succeeds (a dict without error whose keywords, as documented, have
    a length), [start_process] returns True, the step is 2, the trend data
    stored are the empty default [{"trends": [], "hashtags": []}], and a
    warning entry is among the entries added to the status log. *)
Theorem trend_failure_degrades (E : env) (w : world)
    (trend_result analysis_result : json) :
  logging w ->
  gw E GetYoutubeTrends = Ok trend_result ->
  has_error trend_result = true ->
  gw E (AnalyzeDriveContent JNull
          (default (JList []) (workflow_state w !! "keywords")))
    = Ok analysis_result ->
  succeeded analysis_result = true ->
  sized (analysis_keywords analysis_result) = true ->
  exists w' new,
    WorkflowManager.start_process E w = (Ok true, w') /\
    get_step w' = JInt 2 /\
    workflow_state w' !! "trend_data" = Some WorkflowManager.empty_trend_data /\
    status_logs w' = (status_logs w ++ new)%list /\
    Exists (fun entry => entry_status entry = JStr "warning") new.
Proof.
  intros Hw Ht Hte Ha Has Hk.
  pose proof (has_error_get _ Hte). pose proof (has_error_truthy _ Hte).
  pose proof (has_error_item _ Hte).
  pose proof (succeeded_get _ Has). pose proof (succeeded_truthy _ Has).
  destruct (sized_keywords _ Has Hk) as (n & Hkw & Hn).
  unfold WorkflowManager.start_process.
  run.
  do 2 eexists. split; [reflexivity|].
  split; [unfold get_step; look; reflexivity|].
  split; [look; reflexivity|].
  split; [logs; reflexivity|].
  do 2 apply Exists_cons_tl. apply Exists_cons_hd. reflexivity.
Qed.

Ltac branch :=
  match goal with
  | |- context [match ?x with Ok _ => _ | Raise _ => _ end] =>
      lazymatch x with
      | Ok _ => fail
      | Raise _ => fail
      | _ => destruct x eqn:?
      end
  end; cbv beta iota zeta.

Lemma snoc_eq {A} (l l1 l2 : list A) (x y : A) :
  l = (l1 ++ l2)%list -> x = y -> (l ++ [x] = l1 ++ l2 ++ [y])%list.
Proof. intros -> ->. by rewrite app_assoc. Qed.

(** C2: when the generation gateway returns an error, [generate_content]
    returns False, the step is as before, no call made in the transition
    is a call of the quality gateway (assess or finalize), and the last
    entry added to the status log has status error. *)
Theorem generate_failure_is_fatal (E : env) (style : json) (w : world) :
  logging w ->
  (forall visual_summary keywords video_summary trends,
     exists r,
       gw E (GenerateInstagramContent visual_summary keywords video_summary
               trends style) = Ok r
       /\ has_error r = true) ->
  exists w' made new entry,
    WorkflowManager.generate_content E style w = (Ok false, w') /\
    get_step w' = get_step w /\
    calls w' = (calls w ++ made)%list /\
    Forall (fun c => is_quality_call c = false) made /\
    status_logs w' = (status_logs w ++ new ++ [entry])%list /\
    entry_status entry = JStr "error".
Proof.
  intros Hw Hgw.
  unfold WorkflowManager.generate_content.
  repeat first
    [ mstep | progress look | use_facts
    | match goal with
      | |- context [gw _ (GenerateInstagramContent ?a ?b ?c ?d _)] =>
          let r := fresh "r" in
          let Hr := fresh "Hr" in
          let He := fresh "He" in
          destruct (Hgw a b c d) as (r & Hr & He); rewrite Hr;
          pose proof (has_error_get _ He); pose proof (has_error_truthy _ He);
          pose proof (has_error_item _ He)
      end
    | branch ].
  all: do 4 eexists; split; [reflexivity|].
  all: split; [unfold get_step; look; reflexivity|].
  all: split; [first [reflexivity | symmetry; apply app_nil_r]|].
  all: split; [repeat constructor|].
  all: split;
    [ rewrite status_logs_logged; apply snoc_eq; [logs; reflexivity | reflexivity]
    | reflexivity ].
Qed.

Ltac branch_if :=
  match goal with
  | |- context [if truthy ?x then _ else _] => destruct (truthy x) eqn:?
  end; cbv beta iota zeta.

Ltac explore := repeat first [ mstep | progress look | use_facts | branch | branch_if ].

(** C7: when the generation and analysis data are there and the quality
    assessment returns an error, [assess_quality] logs a warning, keeps the
    default score 0.7 and still calls finalize; if finalize succeeds the
    step is 4 and the final output holds the default score, and if
    finalize returns an error the operation returns False and the step is
    as before. *)
Theorem quality_failure_degrades (E : env) (w : world) (g a : gmap string json) (quality_result : json) :
  let image_path := default (JStr "") (g !! "image_path") in
  let prompt := default (JStr "AI generated content") (a !! "visual_summary") in
  let finalize :=
    FinalizeContent image_path prompt (JStr "modern") (JStr "instagram") (JInt 15) in
  logging w ->
  workflow_state w !! "generation_data" = Some (JDict g) ->
  workflow_state w !! "analysis_data" = Some (JDict a) ->
  gw E (AssessImageQuality image_path prompt) = Ok quality_result ->
  has_error quality_result = true ->
  exists r w' new,
    WorkflowManager.assess_quality E w = (r, w') /\
    calls w' = (calls w ++ [AssessImageQuality image_path prompt; finalize])%list /\
    status_logs w' = (status_logs w ++ new)%list /\
    Exists (fun entry => entry_status entry = JStr "warning") new /\
    (forall finalize_result,
       gw E finalize = Ok finalize_result -> succeeded finalize_result = true ->
       get_step w' = JInt 4 /\
       exists out,
         workflow_state w' !! "final_output" = Some (JDict out) /\
         out !! "quality_score" = Some WorkflowManager.default_quality_score /\
         out !! "finalized_content" = Some finalize_result) /\
    (forall finalize_result,
       gw E finalize = Ok finalize_result -> has_error finalize_result = true ->
       r = Ok false /\ get_step w' = get_step w).
Proof.
  intros image_path prompt finalize Hw Hg Ha Hq Hqe.
  pose proof (has_error_get _ Hqe). pose proof (has_error_truthy _ Hqe).
  pose proof (has_error_item _ Hqe).
  unfold WorkflowManager.assess_quality.
  run. fold image_path prompt finalize. explore.
  all: do 3 eexists; split; [reflexivity|].
  all: split; [simpl; by rewrite <- app_assoc|].
  all: split; [logs; reflexivity|].
  all: split; [apply Exists_cons_tl, Exists_cons_hd; reflexivity|].
  all: split; intros rf Hrf Hs; try discriminate Hrf; injection Hrf as <-.
  all: try (pose proof (succeeded_get _ Hs); pose proof (succeeded_truthy _ Hs);
            congruence).
  all: try (pose proof (has_error_get _ Hs); pose proof (has_error_truthy _ Hs);
            congruence).
  all: try (destruct a0; discriminate).
  all: try (split; [unfold get_step; look; reflexivity|]).
  all: try (eexists; split; [look; reflexivity|]; split; reflexivity).
  all: unfold get_step; look; reflexivity.
Qed.

(** ** The status log, the step and the finalize request *)

(** C6: every transition returns, having appended at least one entry to
    the status log, and the log it found is a prefix of the log it leaves:
    nothing is removed, reordered or changed. *)
Theorem status_log_append_only (E : env) (op : operation) (w : world) :
  logging w ->
  exists b w' new,
    run_op E op w = (Ok b, w') /\
    new ≠ [] /\
    status_logs w' = (status_logs w ++ new)%list.
Proof.
  intros Hw.
  destruct (run_op_returns E op w Hw) as (b & w' & new & Hrun & _ & Hnew & Hlogs).
  by exists b, w', new.
Qed.

Lemma status_log_append_only_witness :
  exists b w' new,
    run_op generation_down (GenerateContent (JStr "modern")) uploaded_run = (Ok b, w') /\
    new ≠ [] /\
    status_logs w' = (status_logs uploaded_run ++ new)%list.
Proof.
  apply (status_log_append_only generation_down (GenerateContent (JStr "modern"))
           uploaded_run).
  eexists. vm_compute. reflexivity.
Defined.

(** C3, as the code has it: an operation leaves the step as it found it or
    stores its own fixed step (1 after an upload, 2 after the processing,
    3 after the generation, 4 after the quality stage), whatever the step
    was; no other value, and no failure marker, is ever stored. *)
Theorem step_kept_or_set_to_target (E : env) (op : operation) (w : world) :
  get_step (run_op E op w).2 = get_step w \/
  get_step (run_op E op w).2 = JInt (target op).
Proof.
  destruct (run_op E op w) as [r w'] eqn:Hrun.
  exact (run_op_step_kept E op w r w' Hrun).
Qed.

(** C3, as stated, fails: on a run that went through the whole pipeline
    (step 4) a new upload puts the step back to 1. *)
Lemma upload_moves_step_backward :
  ~ (forall (script : list (env * operation)) (E : env) (op : operation)
            (z z' : Z),
       get_step (run_ops script fresh_run) = JInt z ->
       get_step (run_op E op (run_ops script fresh_run)).2 = JInt z' ->
       z <= z').
Proof.
  intros H.
  specialize (H [ (all_up, example_upload); (all_up, StartProcess);
                  (all_up, GenerateContent (JStr "modern")); (all_up, AssessQuality) ]
                all_up example_upload 4 1).
  assert (4 <= 1) by (apply H; vm_compute; reflexivity).
  lia.
Qed.

(** C10: the finalize requests that [assess_quality] issues carry the
    style "modern", the platform "instagram" and 15 hashtags at most, in
    every state, so also in the state left by [generate_content] called
    with any style. *)
Theorem finalize_request_constants (E E' : env) (style : json) (w : world) :
  (exists new,
     calls (WorkflowManager.assess_quality E w).2 = (calls w ++ new)%list /\
     Forall finalize_constants new) /\
  (let w1 := (WorkflowManager.generate_content E' style w).2 in
   exists new,
     calls (WorkflowManager.assess_quality E w1).2 = (calls w1 ++ new)%list /\
     Forall finalize_constants new).
Proof.
  assert (Hany : forall w0, exists new,
            calls (WorkflowManager.assess_quality E w0).2 = (calls w0 ++ new)%list /\
            Forall finalize_constants new).
  { intros w0. destruct (WorkflowManager.assess_quality E w0) as [r w'] eqn:Hrun.
    exact (assess_quality_calls E w0 r w' Hrun). }
  split; [apply Hany | intros w1; apply Hany].
Qed.

(** ** Failures of single stages: concrete runs *)

Lemma trend_failure_degrades_witness :
  exists w' new,
    WorkflowManager.start_process trend_down uploaded_run = (Ok true, w') /\
    get_step w' = JInt 2 /\
    workflow_state w' !! "trend_data" = Some WorkflowManager.empty_trend_data /\
    status_logs w' = (status_logs uploaded_run ++ new)%list /\
    Exists (fun entry => entry_status entry = JStr "warning") new.
Proof.
  apply (trend_failure_degrades trend_down uploaded_run timeout_result
           (example_body "http://localhost:8003/analyzes/drive/enhanced")).
  - eexists. vm_compute. reflexivity.
  - vm_compute. reflexivity.
  - vm_compute. reflexivity.
  - vm_compute. reflexivity.
  - vm_compute. reflexivity.
  - vm_compute. reflexivity.
Defined.

Lemma generate_failure_is_fatal_witness :
  exists w' made new entry,
    WorkflowManager.generate_content generation_down (JStr "modern") processed_run
      = (Ok false, w') /\
    get_step w' = get_step processed_run /\
    calls w' = (calls processed_run ++ made)%list /\
    Forall (fun c => is_quality_call c = false) made /\
    status_logs w' = (status_logs processed_run ++ new ++ [entry])%list /\
    entry_status entry = JStr "error".
Proof.
  apply (generate_failure_is_fatal generation_down (JStr "modern") processed_run).
  - eexists. vm_compute. reflexivity.
  - intros visual_summary keywords video_summary trends.
    eexists. split; reflexivity.
Defined.

Lemma quality_failure_degrades_witness :
  exists r w',
    WorkflowManager.assess_quality assess_down generated_run = (r, w') /\
    get_step w' = JInt 4.
Proof.
  destruct (quality_failure_degrades assess_down generated_run
              {[ "success" := JBool true;
                 "filename" := JStr "poster_123.png";
                 "image_path" := JStr "generated_images/poster_123.png" ]}
              {[ "visual_summary" := JStr "a puzzle game";
                 "video_summary" := JStr "";
                 "keywords" := JList [JStr "puzzle"; JStr "mobile"] ]}
              timeout_result)
    as (r & w' & new & Hrun & _ & _ & _ & Hfin & _).
  - eexists. vm_compute. reflexivity.
  - vm_compute. reflexivity.
  - vm_compute. reflexivity.
  - vm_compute. reflexivity.
  - vm_compute. reflexivity.
  - exists r, w'. split; [exact Hrun|].
    apply (Hfin (example_body "http://localhost:8005/quality/finalize")).
    + vm_compute. reflexivity.
    + vm_compute. reflexivity.
Defined.

(** Whatever the state holds, [start_process] calls the trend gateway and
    stores what it gets. *)
Lemma start_process_calls_trend (E : env) (w : world) :
  logging w ->
  exists r w' rest,
    WorkflowManager.start_process E w = (r, w') /\
    calls w' = (calls w ++ GetYoutubeTrends :: rest)%list /\
    (forall trend_result,
       gw E GetYoutubeTrends = Ok trend_result ->
       is_dict trend_result = true ->
       workflow_state w' !! "trend_data" =
       Some (if has_error trend_result then WorkflowManager.empty_trend_data
             else trend_result)).
Proof.
  intros Hw. unfold WorkflowManager.start_process.
  explore.
  all: do 3 eexists; split; [reflexivity|].
  all: split; [simpl; rewrite <- ?app_assoc; reflexivity|].
  all: intros tr Htr Hd; try discriminate Htr; injection Htr as <-.
  all: destruct a; try discriminate Hd.
  all: try discriminate.
  all: unfold has_error;
    repeat match goal with
    | H : py_get (JDict _) "error" _ = Ok _ |- _ =>
        rewrite py_get_dict in H; injection H as <-
    end.
  all: try match goal with
    | H : py_item (JDict ?d) ?k = Raise _ |- _ =>
        simpl in H; destruct (d !! k); simpl in *; discriminate
    end.
  all: repeat match goal with H : truthy _ = _ |- _ => rewrite H end.
  all: look; reflexivity.
Qed.

(** ** The assets behind the step *)

Lemma dict_or_not (v : json) : {m | v = JDict m} + {is_dict v = false}.
Proof. destruct v; eauto. Qed.

Lemma py_get_nondict (v : json) (k : string) (d : json) :
  is_dict v = false ->
  py_get v k d = Raise (Exn "AttributeError" "object has no attribute 'get'").
Proof. by destruct v. Qed.

(** A value read from the state or returned by a gateway is a dict or
    has no [get]. *)
Ltac branch_dict :=
  match goal with
  | |- context [py_get ?v _ _] =>
      is_var v;
      let Hnd := fresh "Hnd" in
      destruct (dict_or_not v) as [[? ->] | Hnd];
      [ | rewrite !(py_get_nondict v _ _ Hnd) ]
  end; cbv beta iota zeta.

Ltac explore_values :=
  repeat first [ mstep | progress look | use_facts | branch_dict | branch | branch_if ].

Lemma good_fresh : good fresh_run.
Proof.
  split; [apply logging_fresh|].
  exists 0, JNull, JNull, JNull, JNull, JNull.
  repeat split; try reflexivity; try discriminate; lia.
Qed.

Lemma run_op_good (E : env) (op : operation) (w : world) :
  good w -> good (run_op E op w).2.
Proof.
  intros (Hw & z & vt & va & vg & vq & vf & Hz & Ht & Ha & Hg & Hq & Hf
          & Hat & H2 & H3 & H4).
  destruct op; unfold_ops; explore_values.
  all: lazymatch goal with |- good (snd (_, ?W)) => change (good W) end.
  all: (split; [eauto 20 with run|]).
  all: do 6 eexists.
  all: repeat match goal with
    | |- _ /\ _ => split
    | |- workflow_state _ !! _ = Some _ => look; first [reflexivity | eassumption]
    end.
  all: try (intros; first [assumption | reflexivity | lia | auto]).
Qed.

Lemma run_ops_good (script : list (env * operation)) (w : world) :
  good w -> good (run_ops script w).
Proof.
  revert w. induction script as [|[E op] script IH]; intros w Hw; simpl.
  - exact Hw.
  - apply IH. by apply run_op_good.
Qed.

(** C4, as the code has it: after any operations on a run started from the
    reset state, every asset other than the uploaded files whose step has
    been reached holds a dict, so is not None. *)
Theorem reached_assets_are_dicts (script : list (env * operation)) (a : asset) :
  a ≠ UploadedFiles ->
  reached a (run_ops script fresh_run) = true ->
  is_dict (field (asset_key a) (run_ops script fresh_run)) = true.
Proof.
  intros Ha.
  destruct (run_ops_good script fresh_run good_fresh)
    as (_ & z & vt & va & vg & vq & vf & Hz & Ht & Hva & Hg & Hq & Hf
        & Hat & H2 & H3 & H4).
  unfold reached, get_step, field. rewrite Hz. simpl.
  intros Hr%Z.leb_le.
  destruct a; simpl in Hr |- *;
    rewrite ?Ht, ?Hva, ?Hg, ?Hq, ?Hf; simpl.
  - done.
  - apply Hat, H2. lia.
  - apply H2. lia.
  - apply H3. lia.
  - apply H4. lia.
  - apply H4. lia.
Qed.

Lemma reached_assets_are_dicts_witness :
  is_dict (field (asset_key FinalOutput) completed_run) = true.
Proof.
  apply (reached_assets_are_dicts
           [ (all_up, example_upload); (all_up, StartProcess);
             (all_up, GenerateContent (JStr "modern")); (all_up, AssessQuality) ]
           FinalOutput).
  - discriminate.
  - vm_compute. reflexivity.
Defined.

(** C4, as stated, fails: when the analysis fails after the trends came
    in, the trend data are stored although the step is not 2. *)
Lemma trend_data_stored_before_its_step :
  ~ (forall (script : list (env * operation)) (a : asset),
       populated a (run_ops script fresh_run) = reached a (run_ops script fresh_run)).
Proof.
  intros H.
  specialize (H [ (analysis_down, StartProcess) ] TrendData).
  vm_compute in H. discriminate H.
Qed.

(** The uploaded files are left out above: an upload can succeed and
    store no file. *)
Lemma upload_may_store_no_files :
  let w := run_ops [ (bare_upload, example_upload) ] fresh_run in
  get_step w = JInt 1 /\ field "uploaded_files" w = JList [].
Proof. vm_compute. split; reflexivity. Qed.

(** ** Cancellation *)

(** C9, as the code has it: there is no cancellation check.  In every
    state whose status log is a list, [start_process] calls the trend
    gateway first, and stores the result of that call (or the empty trend
    data, for an error) when it is a dict. *)
Theorem start_process_never_cancelled (E : env) (w : world) :
  logging w ->
  exists r w' rest,
    WorkflowManager.start_process E w = (r, w') /\
    calls w' = (calls w ++ GetYoutubeTrends :: rest)%list /\
    (forall trend_result,
       gw E GetYoutubeTrends = Ok trend_result ->
       is_dict trend_result = true ->
       workflow_state w' !! "trend_data" =
       Some (if has_error trend_result then WorkflowManager.empty_trend_data
             else trend_result)).
Proof. apply start_process_calls_trend. Qed.

Lemma start_process_never_cancelled_witness :
  flag_set "cancelled" cancelled_run /\
  exists r w' rest,
    WorkflowManager.start_process all_up cancelled_run = (r, w') /\
    calls w' = (calls cancelled_run ++ GetYoutubeTrends :: rest)%list /\
    (forall trend_result,
       gw all_up GetYoutubeTrends = Ok trend_result ->
       is_dict trend_result = true ->
       workflow_state w' !! "trend_data" =
       Some (if has_error trend_result then WorkflowManager.empty_trend_data
             else trend_result)).
Proof.
  split; [vm_compute; reflexivity|].
  apply (start_process_never_cancelled all_up cancelled_run).
  eexists. vm_compute. reflexivity.
Defined.

(** C9, as stated, fails: no entry of the state, once set, keeps
    [start_process] from calling the gateways. *)
Lemma cancellation_flag_ignored : ~ (exists key, honours_cancellation key).
Proof.
  intros [key Hkey].
  assert (exists w, logging w /\ flag_set key w) as (w & Hw & Hflag).
  { destruct (decide (key = "status_logs")) as [->|Hne].
    - exists (put "status_logs" (JList [JNull]) fresh_run). split.
      + eexists. apply lookup_put_eq.
      + unfold flag_set. by rewrite field_put_eq.
    - exists (put key (JBool true) fresh_run). split.
      + apply logging_put; [exact Hne | apply logging_fresh].
      + unfold flag_set. by rewrite field_put_eq. }
  specialize (Hkey all_up w Hw Hflag).
  destruct (start_process_calls_trend all_up w Hw) as (r & w' & rest & Hrun & Hcalls & _).
  rewrite Hrun in Hkey. simpl in Hkey. rewrite Hkey in Hcalls.
  apply (f_equal length) in Hcalls. rewrite length_app in Hcalls. simpl in Hcalls. lia.
Qed.

(** ** Aliasing of the values read from the state *)

(** C8, as the code has it: [get_workflow_data] and [get_status_logs]
    return the stored object itself.  When the state holds the list [l]
    under "status_logs", both reads return the reference [l], and what a
    caller appends through it is in the log that the next read and the
    next [add_status_log] see (the next address of the heap being free). *)
Theorem reads_return_the_stored_object (s : Shared.session)
    (state : gmap string Shared.val) (l : Shared.loc)
    (items : list Shared.val) (x : Shared.val) :
  Shared.heap s !! Shared.workflow_state s = Some (Shared.ODict state) ->
  state !! "status_logs" = Some (Shared.VRef l) ->
  Shared.heap s !! l = Some (Shared.OList items) ->
  Shared.next s ≠ Shared.workflow_state s ->
  Shared.next s ≠ l ->
  Shared.get_workflow_data "status_logs" s = Shared.VRef l /\
  (Shared.get_status_logs s).1 = Shared.VRef l /\
  exists s',
    Shared.list_append (Shared.VRef l) x s = Some s' /\
    Shared.read_status_logs s' = Some (items ++ [x])%list /\
    (forall t m st,
       exists s'', Shared.add_status_log t m st s' = Some s'' /\
         Shared.read_status_logs s'' =
         Some (items ++ [x; Shared.VRef (Shared.next s)])%list).
Proof.
  intros Hstate Hlogs Hl Hnext Hfresh.
  assert (Hne : l ≠ Shared.workflow_state s) by congruence.
  unfold Shared.get_workflow_data, Shared.get_status_logs, Shared.list_append,
    Shared.read_status_logs, Shared.get_workflow_data, Shared.add_status_log,
    Shared.alloc, Shared.items_of; simpl.
  rewrite Hstate, Hl, Hlogs. simpl.
  rewrite lookup_insert_ne by done. rewrite Hstate, Hlogs. simpl.
  repeat split.
  eexists. split; [reflexivity|]. simpl.
  rewrite lookup_insert_ne by done. rewrite Hstate, Hlogs. simpl.
  rewrite lookup_insert_eq. split; [reflexivity|].
  intros t m st.
  repeat (first [ rewrite lookup_insert_eq | rewrite lookup_insert_ne by done
                | rewrite Hstate | rewrite Hlogs ]; simpl).
  eexists. split; [reflexivity|]. simpl.
  repeat (first [ rewrite lookup_insert_eq | rewrite lookup_insert_ne by done
                | rewrite Hstate | rewrite Hlogs ]; simpl).
  by rewrite <- app_assoc.
Qed.

Lemma reads_return_the_stored_object_witness :
  Shared.get_workflow_data "status_logs" Shared.reset_session = Shared.VRef 1%nat /\
  (Shared.get_status_logs Shared.reset_session).1 = Shared.VRef 1%nat /\
  exists s',
    Shared.list_append (Shared.VRef 1%nat) (Shared.VStr "forged") Shared.reset_session
      = Some s' /\
    Shared.read_status_logs s' = Some ([] ++ [Shared.VStr "forged"])%list /\
    (forall t m st,
       exists s'', Shared.add_status_log t m st s' = Some s'' /\
         Shared.read_status_logs s'' =
         Some ([] ++ [Shared.VStr "forged";
                      Shared.VRef (Shared.next Shared.reset_session)])%list).
Proof.
  apply (reads_return_the_stored_object Shared.reset_session
           {[ "step" := Shared.VInt 0;
              "trend_data" := Shared.VNone;
              "analysis_data" := Shared.VNone;
              "generation_data" := Shared.VNone;
              "quality_data" := Shared.VNone;
              "uploaded_files" := Shared.VRef 0%nat;
              "status_logs" := Shared.VRef 1%nat;
              "final_output" := Shared.VNone ]}
           1%nat [] (Shared.VStr "forged")).
  - vm_compute. reflexivity.
  - vm_compute. reflexivity.
  - vm_compute. reflexivity.
  - vm_compute. discriminate.
  - vm_compute. discriminate.
Defined.

(** C8, as stated, fails: after a reset, an entry appended by the caller
    to the list that the read returned is in the log at the next read. *)
Lemma returned_list_is_shared : ~ Shared.reads_return_copies.
Proof.
  intros H.
  assert (Hrun : exists s',
            Shared.list_append
              (Shared.get_workflow_data "status_logs" Shared.reset_session)
              (Shared.VStr "forged") Shared.reset_session = Some s' /\
            Shared.read_status_logs s' = Some [Shared.VStr "forged"]).
  { eexists. split; vm_compute; reflexivity. }
  destruct Hrun as (s' & Happ & Hread).
  specialize (H _ _ _ Happ). rewrite Hread in H.
  vm_compute in H. discriminate H.
Qed.

(** * Further properties *)

(** ** Health probes *)

(** X1: [check_service_health] never raises, and answers True exactly
    when the name is one of the client's services and the GET of its
    /health (timeout 5) gives a response whose status is 200; an unknown
    name, a failed request or any other status gives False. *)
Theorem check_service_health_spec (net : network) (service_name : string) :
  exists healthy,
    MicroserviceClientRest.check_service_health net service_name = Ok healthy /\
    (healthy = true <->
     exists base resp,
       MicroserviceClient.services !! service_name = Some base /\
       net (health_request base) = Ok resp /\
       status_code resp = 200).
Proof.
  unfold MicroserviceClientRest.check_service_health, py_getitem, requests_get.
  destruct (MicroserviceClient.services !! service_name) as [base|] eqn:Hbase; simpl.
  - fold (health_request base).
    destruct (net (health_request base)) as [resp|e] eqn:Hnet; simpl.
    + eexists. split; [reflexivity|]. rewrite Z.eqb_eq. split.
      * intros H. by exists base, resp.
      * intros (b & r & Hb & Hr & H). congruence.
    + exists false. split; [reflexivity|]. split; [discriminate|].
      intros (b & r & Hb & Hr & _). congruence.
  - exists false. split; [reflexivity|]. split; [discriminate|].
    intros (b & r & Hb & _). discriminate.
Qed.

Lemma check_each_spec (net : network) (names : list string)
    (acc : gmap string bool) :
  exists m,
    MicroserviceClientRest.check_each net names acc = Ok m /\
    forall name,
      m !! name =
      if bool_decide (name ∈ names)
      then match MicroserviceClientRest.check_service_health net name with
           | Ok b => Some b
           | Raise _ => None
           end
      else acc !! name.
Proof.
  revert acc. induction names as [|n names IH]; intros acc.
  - exists acc. split; [reflexivity|]. intros name.
    case_bool_decide as Hin; [by apply elem_of_nil in Hin | reflexivity].
  - destruct (check_service_health_spec net n) as (b & Hb & _).
    cbn [MicroserviceClientRest.check_each]. rewrite Hb. cbn [mbind PyResult_bind].
    destruct (IH (<[n := b]> acc)) as (m & Hm & Hlook).
    exists m. split; [exact Hm|]. intros name. rewrite Hlook.
    destruct (decide (name = n)) as [->|Hne].
    + rewrite (bool_decide_eq_true_2 (n ∈ n :: names)) by (apply elem_of_cons; by left).
      rewrite Hb. case_bool_decide; [reflexivity | apply lookup_insert_eq].
    + rewrite lookup_insert_ne by done.
      apply (f_equal (fun b : bool => if b then _ else _)).
      apply bool_decide_ext. rewrite elem_of_cons.
      split; [by right | by intros [?|?]].
Qed.

Lemma services_names :
  dom MicroserviceClient.services
  = list_to_set MicroserviceClientRest.service_names.
Proof. vm_compute. reflexivity. Qed.

(** X2: [check_services_health] returns a dict that has exactly the
    keys of the client's service table, each with the answer of
    [check_service_health] for that service. *)
Theorem check_all_services_spec (net : network) :
  exists health_status,
    check_services_health net = Ok health_status /\
    dom health_status = dom MicroserviceClient.services /\
    forall service_name healthy,
      health_status !! service_name = Some healthy ->
      MicroserviceClientRest.check_service_health net service_name = Ok healthy.
Proof.
  unfold check_services_health, MicroserviceClientRest.check_all_services.
  destruct (check_each_spec net MicroserviceClientRest.service_names ∅)
    as (m & Hm & Hlook).
  exists m. split; [exact Hm|]. split.
  - rewrite services_names. apply set_eq. intros name.
    rewrite elem_of_dom, elem_of_list_to_set, Hlook.
    case_bool_decide as Hin.
    + destruct (check_service_health_spec net name) as (b & Hb & _). rewrite Hb.
      split; [done | eauto].
    + rewrite lookup_empty. split; [intros [? ?]; discriminate | done].
  - intros name b. rewrite Hlook.
    case_bool_decide; [|by rewrite lookup_empty].
    destruct (MicroserviceClientRest.check_service_health net name); congruence.
Qed.

(** ** The other methods of the client *)

Lemma raise_for_status_passes (resp : response) :
  status_passes (status_code resp) -> raise_for_status resp = Ok tt.
Proof.
  unfold status_passes, raise_for_status. intros H.
  destruct (400 <=? status_code resp) eqn:H1;
    destruct (status_code resp <? 600) eqn:H2; simpl; try reflexivity.
  apply Z.leb_le in H1. apply Z.ltb_lt in H2. lia.
Qed.

Lemma raise_for_status_blocks (resp : response) :
  ~ status_passes (status_code resp) ->
  raise_for_status resp = Raise (Exn "HTTPError" (http_error_msg resp)).
Proof.
  unfold status_passes, raise_for_status. intros H.
  destruct (400 <=? status_code resp) eqn:H1;
    destruct (status_code resp <? 600) eqn:H2; simpl; try reflexivity;
    exfalso; apply H.
  - apply Z.ltb_ge in H2. lia.
  - apply Z.leb_gt in H1. lia.
  - apply Z.leb_gt in H1. lia.
Qed.

(** X3: [analyze_text_keywords] and [get_generation_styles] never raise
    either: they return a value on every network, and for a failed request
    the dict with the message under "error" and False under "success". *)
Theorem other_json_methods_never_raise (net : network)
    (title description keywords : json) :
  (exists v,
     MicroserviceClientRest.analyze_text_keywords net title description keywords
     = Ok v) /\
  (exists v, MicroserviceClientRest.get_generation_styles net = Ok v) /\
  (forall e,
     net_failure (net (text_keywords_request title description keywords)) = Some e ->
     MicroserviceClientRest.analyze_text_keywords net title description keywords
     = Ok (JDict {[ "error" := JStr (exn_msg e); "success" := JBool false ]})) /\
  (forall e,
     net_failure (net styles_request) = Some e ->
     MicroserviceClientRest.get_generation_styles net
     = Ok (JDict {[ "error" := JStr (exn_msg e); "success" := JBool false ]})).
Proof.
  assert (Hbody : forall r,
    (exists v, try_catch (MicroserviceClient.checked_json r)
                 (fun e => Ok (MicroserviceClient.error_result e)) = Ok v) /\
    (forall e, net_failure r = Some e ->
       try_catch (MicroserviceClient.checked_json r)
         (fun e => Ok (MicroserviceClient.error_result e))
       = Ok (MicroserviceClient.error_result e))).
  { intros r. unfold MicroserviceClient.checked_json, net_failure.
    destruct r as [resp|e0]; simpl.
    - destruct (raise_for_status resp) as [[]|e1]; simpl.
      + destruct (json_body resp) as [v|e2]; simpl.
        * split; [eauto | discriminate].
        * split; [eauto | intros e [= <-]; reflexivity].
      + split; [eauto | intros e [= <-]; reflexivity].
    - split; [eauto | intros e [= <-]; reflexivity]. }
  split; [apply (Hbody (net (text_keywords_request title description keywords)))|].
  split; [apply (Hbody (net styles_request))|].
  split; [apply (Hbody (net (text_keywords_request title description keywords)))|].
  apply (Hbody (net styles_request)).
Qed.

Lemma download_generated_image_eq
    (net : MicroserviceClientRest.binary_network) (filename : string) :
  MicroserviceClientRest.download_generated_image net filename =
  match net (download_request filename) with
  | Ok r =>
      match raise_for_status (MicroserviceClientRest.status_line r) with
      | Ok _ => Ok (MicroserviceClientRest.response_content r, None)
      | Raise e => Ok ([], Some ("Görsel indirilemedi: " ++ exn_msg e))
      end
  | Raise e => Ok ([], Some ("Görsel indirilemedi: " ++ exn_msg e))
  end.
Proof.
  unfold MicroserviceClientRest.download_generated_image, download_request.
  change (py_getitem MicroserviceClient.services "generation")
    with (Ok "http://localhost:8004" : PyResult string).
  cbn [mbind PyResult_bind try_catch].
  change ("http://localhost:8004" ++ "/generate/poster/download/" ++ filename)
    with ("http://localhost:8004/generate/poster/download/" ++ filename).
  change MicroserviceClient.timeout with 120.
  destruct (net _) as [r|e]; [|reflexivity].
  cbn [mbind PyResult_bind try_catch].
  destruct (raise_for_status _); reflexivity.
Qed.

(** X4: [download_generated_image] never raises.  A response whose status
    is not 4xx or 5xx gives its content and no message; a 4xx or 5xx
    response, or a request that raises, gives the empty bytes and a message
    for the page. *)
Theorem download_generated_image_spec
    (net : MicroserviceClientRest.binary_network) (filename : string) :
  (exists data shown,
     MicroserviceClientRest.download_generated_image net filename
     = Ok (data, shown)) /\
  (forall r,
     net (download_request filename) = Ok r ->
     status_passes (status_code (MicroserviceClientRest.status_line r)) ->
     MicroserviceClientRest.download_generated_image net filename
     = Ok (MicroserviceClientRest.response_content r, None)) /\
  (forall r,
     net (download_request filename) = Ok r ->
     ~ status_passes (status_code (MicroserviceClientRest.status_line r)) ->
     exists message,
       MicroserviceClientRest.download_generated_image net filename
       = Ok ([], Some message)) /\
  (forall e,
     net (download_request filename) = Raise e ->
     MicroserviceClientRest.download_generated_image net filename
     = Ok ([], Some ("Görsel indirilemedi: " ++ exn_msg e))).
Proof.
  rewrite download_generated_image_eq.
  split; [|split; [|split]].
  - destruct (net _) as [r|e]; [|eauto].
    destruct (raise_for_status _); eauto.
  - intros r -> Hyes. by rewrite (raise_for_status_passes _ Hyes).
  - intros r -> Hno. rewrite (raise_for_status_blocks _ Hno). eauto.
  - by intros e ->.
Qed.

(** X5: when the response to a call's request has a status that is not
    4xx or 5xx and a body that parses, the client returns that body
    unchanged. *)
Theorem client_returns_body (net : network) (c : call) (resp : response) (v : json) :
  net (request_of c) = Ok resp ->
  status_passes (status_code resp) ->
  json_body resp = Ok v ->
  client net c = Ok v.
Proof.
  intros Hnet Hstatus Hbody.
  assert (H : try_catch (MicroserviceClient.checked_json (net (request_of c)))
                (fun e => Ok (MicroserviceClient.error_result e)) = Ok v).
  { rewrite Hnet. unfold MicroserviceClient.checked_json. simpl.
    rewrite (raise_for_status_passes _ Hstatus). simpl. by rewrite Hbody. }
  destruct c; exact H.
Qed.

Lemma client_returns_body_witness :
  client (example_network [] []) GetYoutubeTrends
  = Ok (example_body "http://localhost:8002/analyzes/youtube").
Proof.
  apply (client_returns_body (example_network [] []) GetYoutubeTrends
           (Response 200 "" (Ok (example_body "http://localhost:8002/analyzes/youtube")))).
  - reflexivity.
  - left. simpl. lia.
  - reflexivity.
Defined.

(** ** What an operation returns, beside what it stores and logs *)

Lemma run_op_outcome (E : env) (op : operation) (w : world) :
  logging w ->
  exists b w' before entry,
    run_op E op w = (Ok b, w') /\
    status_logs w' = (status_logs w ++ before ++ [entry])%list /\
    (b = true ->
     get_step w' = JInt (target op) /\ entry_status entry ≠ JStr "error") /\
    (b = false ->
     entry_status entry = JStr "error" /\
     (get_step w' = get_step w \/
      (op = AssessQuality /\ get_step w' = JInt 4 /\
       is_dict (field "final_output" w') = true))) /\
    (forall files keywords description,
       op = UploadMaterials files keywords description -> b = true ->
       workflow_state w' !! "keywords" = Some keywords /\
       workflow_state w' !! "description" = Some description).
Proof.
  intros Hw.
  destruct op; unfold_ops; explore_values.
  all: do 4 eexists; split; [reflexivity|].
  all: split;
    [ rewrite ?status_logs_put by discriminate; rewrite status_logs_logged;
      apply snoc_eq; [logs; reflexivity | reflexivity] |].
  all: split; [intros Hb; try discriminate Hb;
               (split; [unfold get_step; look; reflexivity | discriminate])|].
  all: split; [intros Hb; try discriminate Hb;
               (split; [reflexivity|])|].
  all: try (left; unfold get_step; look; reflexivity).
  all: try (right; split; [reflexivity|]; split;
            [unfold get_step; look; reflexivity | unfold field; look; reflexivity]).
  all: intros files kw desc Hop Hb; try discriminate Hb; try discriminate Hop.
  all: injection Hop as -> -> ->; split; look; reflexivity.
Qed.

(** X6: an operation that returns True has stored its own step: 1 for
    the upload, 2 for the processing, 3 for the generation, 4 for the
    quality stage; [is_step_completed] then answers True exactly for the
    steps below it. *)
Theorem success_sets_the_step (E : env) (op : operation) (w w' : world) :
  logging w ->
  run_op E op w = (Ok true, w') ->
  get_step w' = JInt (target op) /\
  forall step,
    WorkflowManagerRest.is_step_completed step w' = (Ok (step <? target op), w').
Proof.
  intros Hw Hrun.
  destruct (run_op_outcome E op w Hw) as (b & w1 & before & entry & Hrun1 & _ & Ht & _).
  rewrite Hrun in Hrun1. injection Hrun1 as <- <-.
  destruct (Ht eq_refl) as [Hstep _]. split; [exact Hstep|].
  intros step.
  unfold WorkflowManagerRest.is_step_completed, WorkflowManager.get_current_step.
  rewrite bind_eq, state_get_eq. cbv beta iota zeta. rewrite lift_eq.
  unfold get_step in Hstep.
  destruct (workflow_state w' !! "step") as [v|]; simpl in Hstep |- *.
  - by rewrite Hstep.
  - discriminate Hstep.
Qed.

Lemma success_sets_the_step_witness :
  get_step (run_op all_up example_upload fresh_run).2 = JInt 1.
Proof.
  destruct (success_sets_the_step all_up example_upload fresh_run
              (run_op all_up example_upload fresh_run).2) as [Hstep _].
  - apply logging_fresh.
  - vm_compute. reflexivity.
  - exact Hstep.
Defined.

(** X7: when [upload_materials], [start_process] or [generate_content]
    returns False, the step is as it was. *)
Theorem failure_keeps_the_step (E : env) (op : operation) (w w' : world) :
  logging w ->
  op ≠ AssessQuality ->
  run_op E op w = (Ok false, w') ->
  get_step w' = get_step w.
Proof.
  intros Hw Hop Hrun.
  destruct (run_op_outcome E op w Hw)
    as (b & w1 & before & entry & Hrun1 & _ & _ & Hf & _).
  rewrite Hrun in Hrun1. injection Hrun1 as <- <-.
  destruct (Hf eq_refl) as [_ [Hstep | [Hq _]]]; [exact Hstep | contradiction].
Qed.

Lemma failure_keeps_the_step_witness :
  get_step (run_op generation_down (GenerateContent (JStr "modern")) processed_run).2
  = get_step processed_run.
Proof.
  apply (failure_keeps_the_step generation_down (GenerateContent (JStr "modern"))
           processed_run).
  - eexists. vm_compute. reflexivity.
  - discriminate.
  - vm_compute. reflexivity.
Defined.

(** X8: every operation returns a boolean, and it is False exactly when
    the last entry of the status log it leaves has status error. *)
Theorem failure_is_the_last_entry (E : env) (op : operation) (w : world) :
  logging w ->
  exists b w' entry,
    run_op E op w = (Ok b, w') /\
    last (status_logs w') = Some entry /\
    (b = false <-> entry_status entry = JStr "error").
Proof.
  intros Hw.
  destruct (run_op_outcome E op w Hw)
    as (b & w' & before & entry & Hrun & Hlogs & Ht & Hf & _).
  exists b, w', entry. split; [exact Hrun|]. split.
  - rewrite Hlogs, app_assoc. apply last_snoc.
  - split; [intros Hb; by apply Hf|].
    destruct b; [|reflexivity]. intros Herr. by destruct (Ht eq_refl) as [_ Hne].
Qed.

Lemma failure_is_the_last_entry_witness :
  exists b w' entry,
    run_op analysis_down StartProcess uploaded_run = (Ok b, w') /\
    last (status_logs w') = Some entry /\
    (b = false <-> entry_status entry = JStr "error").
Proof.
  apply (failure_is_the_last_entry analysis_down StartProcess uploaded_run).
  eexists. vm_compute. reflexivity.
Defined.

(** X9: [assess_quality] can return False after the commit: when it
    returns False, either the step is as it was, or the step is 4 and the
    final output is stored (the count of the hashtags raised after the
    state was written). *)
Theorem assess_quality_failure_after_commit (E : env) (w w' : world) :
  logging w ->
  WorkflowManager.assess_quality E w = (Ok false, w') ->
  get_step w' = get_step w \/
  (get_step w' = JInt 4 /\ is_dict (field "final_output" w') = true).
Proof.
  intros Hw Hrun.
  destruct (run_op_outcome E AssessQuality w Hw)
    as (b & w1 & before & entry & Hrun1 & _ & _ & Hf & _).
  simpl in Hrun1. rewrite Hrun in Hrun1. injection Hrun1 as <- <-.
  destruct (Hf eq_refl) as [_ [Hstep | (_ & H4 & Hout)]]; [by left | by right].
Qed.

Lemma assess_quality_failure_after_commit_witness :
  let w' := (WorkflowManager.assess_quality hashtag_count_only generated_run).2 in
  get_step generated_run = JInt 3 /\
  get_step w' = JInt 4 /\ is_dict (field "final_output" w') = true.
Proof.
  destruct (assess_quality_failure_after_commit hashtag_count_only generated_run
              (WorkflowManager.assess_quality hashtag_count_only generated_run).2)
    as [Hsame | Hcommitted].
  - eexists. vm_compute. reflexivity.
  - vm_compute. reflexivity.
  - vm_compute in Hsame. discriminate Hsame.
  - split; [vm_compute; reflexivity | exact Hcommitted].
Defined.

(** ** The upload and the Process button *)

(** X10: the test with which the page disables the Process button is the
    negation of the manager's [is_upload_completed], in every state, also
    in what it raises. *)
Theorem process_disabled_negates_is_upload_completed (w : world) :
  App.process_disabled w =
  match WorkflowManagerRest.is_upload_completed w with
  | (Ok completed, w') => (Ok (negb completed), w')
  | (Raise e, w') => (Raise e, w')
  end.
Proof.
  unfold App.process_disabled, WorkflowManagerRest.is_upload_completed.
  rewrite !bind_eq, !state_get_eq. cbv beta iota zeta.
  rewrite !bind_eq, !state_get_eq. cbv beta iota zeta.
  rewrite !bind_eq, !lift_eq. cbv beta iota zeta.
  set (files := default (JList []) (workflow_state w !! "uploaded_files")).
  set (keywords := default (JList []) (workflow_state w !! "keywords")).
  unfold py_empty, py_nonempty.
  destruct (py_len files) as [[| | n | | | |]|e] eqn:Hf; simpl; try reflexivity;
    try (destruct files; simpl in Hf; discriminate).
  assert (0 <= n) as Hn by (destruct files; simpl in Hf; try discriminate;
                            injection Hf as <-; lia).
  destruct (Z.eqb_spec n 0) as [->|Hne]; simpl; [reflexivity|].
  destruct (Z.ltb_spec 0 n); [|lia].
  rewrite !lift_eq.
  destruct (py_len keywords) as [[| | k | | | |]|e] eqn:Hk; simpl; try reflexivity;
    try (destruct keywords; simpl in Hk; discriminate).
  assert (0 <= k) as Hk0 by (destruct keywords; simpl in Hk; try discriminate;
                             injection Hk as <-; lia).
  destruct (Z.eqb_spec k 0) as [->|Hne']; simpl; [reflexivity|].
  destruct (Z.ltb_spec 0 k); [reflexivity|lia].
Qed.

(** X11: when the files can be read and the upload service answers a
    dict with a true "success", [upload_materials] returns True, stores the
    images named by the answer, the keywords and the description as given,
    and the step 1; [is_upload_completed] afterwards is true exactly when
    both the images and the keywords are non-empty. *)
Theorem upload_materials_stores (E : env) (uploaded_files : list UploadedFile)
    (keywords description : json) (w : world) (file_bytes_list : list bytes)
    (upload_result : gmap string json) (images : json) :
  logging w ->
  WorkflowManager.read_files uploaded_files = Ok file_bytes_list ->
  gw E (UploadImages file_bytes_list) = Ok (JDict upload_result) ->
  truthy (default (JBool false) (upload_result !! "success")) = true ->
  images_of upload_result = Ok images ->
  exists w',
    WorkflowManager.upload_materials E uploaded_files keywords description w
    = (Ok true, w') /\
    workflow_state w' !! "uploaded_files" = Some images /\
    workflow_state w' !! "keywords" = Some keywords /\
    workflow_state w' !! "description" = Some description /\
    get_step w' = JInt 1 /\
    WorkflowManagerRest.is_upload_completed w' = (both_nonempty images keywords, w').
Proof.
  intros Hw Hread Hgw Hsuccess Himages.
  unfold images_of in Himages.
  unfold WorkflowManager.upload_materials.
  run. set (assets := default (JDict ∅) (upload_result !! "assets")) in *.
  run.
  eexists. split; [reflexivity|].
  split; [look; reflexivity|]. split; [look; reflexivity|].
  split; [look; reflexivity|]. split; [unfold get_step; look; reflexivity|].
  unfold WorkflowManagerRest.is_upload_completed, both_nonempty.
  run. destruct (py_nonempty images) as [[]|]; reflexivity.
Qed.

Lemma upload_materials_stores_witness :
  exists w',
    WorkflowManager.upload_materials bare_upload
      [ {| closed := false; content := [] |} ] (JList [JStr "puzzle"])
      (JStr "a puzzle game") fresh_run = (Ok true, w') /\
    get_step w' = JInt 1 /\
    WorkflowManagerRest.is_upload_completed w' = (Ok false, w').
Proof.
  destruct (upload_materials_stores bare_upload
              [ {| closed := false; content := [] |} ] (JList [JStr "puzzle"])
              (JStr "a puzzle game") fresh_run [ [] ]
              {[ "success" := JBool true ]} (JList []))
    as (w' & Hrun & _ & _ & _ & Hstep & Hdone).
  - apply logging_fresh.
  - reflexivity.
  - reflexivity.
  - reflexivity.
  - reflexivity.
  - exists w'. split; [exact Hrun|]. split; [exact Hstep|]. exact Hdone.
Defined.

(** ** From the upload to the analysis *)

Lemma start_process_calls (E : env) (w : world) (trend_result : json) :
  logging w ->
  gw E GetYoutubeTrends = Ok trend_result ->
  is_dict trend_result = true ->
  has_error trend_result = true \/ sized (trends_of trend_result) = true ->
  exists r w',
    WorkflowManager.start_process E w = (r, w') /\
    calls w' =
    (calls w ++ [GetYoutubeTrends;
                 AnalyzeDriveContent JNull
                   (default (JList []) (workflow_state w !! "keywords"))])%list.
Proof.
  intros Hw Hgw Hdict Hcond.
  destruct trend_result as [| | | | | |d]; try discriminate Hdict.
  unfold has_error, sized, trends_of in Hcond.
  unfold WorkflowManager.start_process.
  run.
  destruct (truthy (default JNull (d !! "error"))) eqn:Herr; cbv beta iota zeta.
  - assert (Hitem : py_item (JDict d) "error" = Ok (default JNull (d !! "error"))).
    { simpl. destruct (d !! "error"); [reflexivity | discriminate Herr]. }
    explore.
    all: do 2 eexists; split; [reflexivity|].
    all: simpl; by rewrite <- app_assoc.
  - destruct Hcond as [Hcond|Hcond]; [discriminate Hcond|].
    destruct (py_len (default (JList []) (d !! "trends"))) as [n|] eqn:Hlen;
      [|discriminate Hcond].
    explore.
    all: do 2 eexists; split; [reflexivity|].
    all: simpl; by rewrite <- app_assoc.
Qed.

(** X12: after an upload that returned True, [start_process] (when the
    trend answer is a dict with an error, or with trends that have a
    length) calls the trend gateway and then the analysis gateway with
    exactly the keywords that were given to the upload. *)
Theorem uploaded_keywords_reach_the_analysis (E E' : env)
    (uploaded_files : list UploadedFile) (keywords description : json)
    (w w1 : world) (trend_result : json) :
  logging w ->
  WorkflowManager.upload_materials E uploaded_files keywords description w
  = (Ok true, w1) ->
  gw E' GetYoutubeTrends = Ok trend_result ->
  is_dict trend_result = true ->
  has_error trend_result = true \/ sized (trends_of trend_result) = true ->
  exists r w2,
    WorkflowManager.start_process E' w1 = (r, w2) /\
    calls w2 =
    (calls w1 ++ [GetYoutubeTrends; AnalyzeDriveContent JNull keywords])%list.
Proof.
  intros Hw Hup Hgw Hdict Hcond.
  destruct (run_op_outcome E (UploadMaterials uploaded_files keywords description) w Hw)
    as (b & w1' & before & entry & Hrun & _ & _ & _ & Hkw).
  destruct (run_op_returns E (UploadMaterials uploaded_files keywords description) w Hw)
    as (b' & w1'' & new & Hrun' & Hw1 & _).
  simpl in Hrun, Hrun'. rewrite Hup in Hrun, Hrun'.
  injection Hrun as <- <-. injection Hrun' as <- <-.
  destruct (Hkw _ _ _ eq_refl eq_refl) as [Hk _].
  destruct (start_process_calls E' w1 trend_result Hw1 Hgw Hdict Hcond)
    as (r & w2 & Hrun2 & Hcalls).
  exists r, w2. split; [exact Hrun2|]. by rewrite Hcalls, Hk.
Qed.

Lemma uploaded_keywords_reach_the_analysis_witness :
  exists r w2,
    WorkflowManager.start_process trend_down uploaded_run = (r, w2) /\
    calls w2 =
    (calls uploaded_run
       ++ [GetYoutubeTrends; AnalyzeDriveContent JNull (JList [JStr "puzzle"])])%list.
Proof.
  apply (uploaded_keywords_reach_the_analysis all_up trend_down
           [ {| closed := false; content := [] |} ] (JList [JStr "puzzle"])
           (JStr "a puzzle game") fresh_run uploaded_run timeout_result).
  - apply logging_fresh.
  - vm_compute. reflexivity.
  - vm_compute. reflexivity.
  - reflexivity.
  - left. vm_compute. reflexivity.
Defined.

(** ** The Generate request *)

Lemma utf8_take_length (n : nat) (s : string) :
  (utf8_length (utf8_take n s) <= n)%nat.
Proof.
  revert n. induction s as [|c s IH]; intros n; simpl; [lia|].
  destruct (utf8_start c) eqn:Hc.
  - destruct n as [|n]; simpl; [lia|]. rewrite Hc. specialize (IH n). lia.
  - simpl. rewrite Hc. apply IH.
Qed.

Lemma py_slice5_capped (v trends : json) :
  py_slice5 v = Ok trends ->
  match trends with
  | JList l => (length l <= 5)%nat
  | JStr s => (utf8_length s <= 5)%nat
  | _ => False
  end.
Proof.
  destruct v; simpl; intros [= <-].
  - apply utf8_take_length.
  - rewrite length_take. lia.
Qed.

Lemma preserves_bind_lift (R : relation world) `{!PreOrder R} {A B}
    (r : PyResult A) (k : A -> M B) :
  (forall a, r = Ok a -> preserves R (k a)) -> preserves R (lift r ≫= k).
Proof.
  intros Hk w r' w'. rewrite bind_eq, lift_eq.
  destruct r as [a|e]; intros Hrun.
  - eapply Hk; [reflexivity | exact Hrun].
  - injection Hrun as _ <-. reflexivity.
Qed.

(** As [preserve], keeping what each pure step returned. *)
Ltac preserve_with_facts :=
  repeat match goal with
  | |- preserves _ (try_except _ _) =>
      apply preserves_try; [typeclasses eauto | | intros ?]
  | |- preserves _ (lift _ ≫= _) =>
      apply preserves_bind_lift; [typeclasses eauto | intros ? ?]
  | |- preserves _ (_ ≫= _) =>
      apply preserves_bind; [typeclasses eauto | | intros ?]
  | |- preserves _ (if _ then _ else _) => apply preserves_if
  | |- preserves _ (mret _) => apply preserves_ret; typeclasses eauto
  | |- preserves _ (lift _) => apply preserves_lift; typeclasses eauto
  | |- preserves _ (state_get _ _) => apply preserves_state_get; typeclasses eauto
  | |- preserves _ _ => solve [eauto with run]
  end.

(** X13: every Generate call that [generate_content] makes carries five
    trends at most. *)
Theorem generate_request_has_five_trends_at_most (E : env) (style : json) (w : world) :
  exists new,
    calls (WorkflowManager.generate_content E style w).2 = (calls w ++ new)%list /\
    Forall trends_capped new.
Proof.
  destruct (WorkflowManager.generate_content E style w) as [r w'] eqn:Hrun.
  revert Hrun. generalize w r w'.
  change (preserves (calls_extend trends_capped)
            (WorkflowManager.generate_content E style)).
  unfold WorkflowManager.generate_content.
  preserve_with_facts.
  apply calls_extend_invoke. simpl.
  match goal with H : py_slice5 _ = Ok _ |- _ => exact (py_slice5_capped _ _ H) end.
Qed.

(** ** The Quality button *)

Lemma preserves_elim {A} (R : relation world) (m : M A) (w : world)
    (r : PyResult A) (w' : world) :
  preserves R m -> m w = (r, w') -> R w w'.
Proof. intros H. apply H. Qed.

Lemma assess_quality_reaches_gateway (E : env) (w : world)
    (g a : gmap string json) :
  logging w ->
  workflow_state w !! "generation_data" = Some (JDict g) ->
  workflow_state w !! "analysis_data" = Some (JDict a) ->
  exists rest,
    calls (WorkflowManager.assess_quality E w).2 =
    (calls w ++
       AssessImageQuality (default (JStr "") (g !! "image_path"))
         (default (JStr "AI generated content") (a !! "visual_summary")) :: rest)%list.
Proof.
  intros Hw Hg Ha.
  unfold WorkflowManager.assess_quality.
  run.
  assert (Hhandler : forall e w1 r w',
            (WorkflowManager.add_status_log E
               ("❌ Kalite değerlendirmesi sırasında hata: " ++ exn_msg e) "error"
             ≫= λ _ : (), mret false) w1 = (r, w') -> calls w' = calls w1).
  { intros e w1 r w' Hh.
    apply (preserves_elim (calls_extend (fun _ => False))) in Hh; [|preserve].
    destruct Hh as (new & Hnew & Hall). destruct new as [|c new].
    - by rewrite Hnew, app_nil_r.
    - inversion Hall as [|? ? Hc _]. destruct Hc. }
  destruct (gw E _) as [quality_result|e0]; cbv beta iota zeta.
  - match goal with
    | |- context [let (p, w') := ?body in _] => destruct body as [[b|e] w1] eqn:Hbody
    end;
      apply (preserves_elim (calls_extend (fun _ => True))) in Hbody;
      try (preserve; apply calls_extend_invoke; exact I);
      destruct Hbody as (new & Hnew & _); simpl in Hnew.
    + exists new. simpl. by rewrite Hnew, <- app_assoc.
    + match goal with
      | |- context [(?m ≫= ?k) w1] => destruct ((m ≫= k) w1) as [r w'] eqn:Hh
      end.
      apply Hhandler in Hh.
      exists new. simpl. by rewrite Hh, Hnew, <- app_assoc.
  - match goal with
    | |- context [(?m ≫= ?k) ?w1] => destruct ((m ≫= k) w1) as [r w'] eqn:Hh
    end.
    apply Hhandler in Hh.
    exists []. simpl. by rewrite Hh.
Qed.

(** X14: in every state reached from a reset by operations of the
    manager, if the page's Quality button is enabled (the step is not
    below 3), [assess_quality] gets as far as calling the Assess gateway:
    the data it reads before the call are there. *)
Theorem quality_button_reaches_the_gateway (script : list (env * operation))
    (E : env) :
  let w := run_ops script fresh_run in
  App.quality_disabled w = (Ok false, w) ->
  exists image_path prompt rest,
    calls (WorkflowManager.assess_quality E w).2 =
    (calls w ++ AssessImageQuality image_path prompt :: rest)%list.
Proof.
  intros w.
  destruct (run_ops_good script fresh_run good_fresh)
    as (Hw & z & vt & va & vg & vq & vf & Hz & Ht & Hva & Hg & Hq & Hf
        & Hat & H2 & H3 & H4).
  fold w in Hw, Hz, Ht, Hva, Hg, Hq, Hf.
  unfold App.quality_disabled, WorkflowManager.get_current_step.
  rewrite bind_eq, state_get_eq, Hz. cbv beta iota zeta. rewrite lift_eq.
  simpl. intros [= Hlt]. apply Z.ltb_ge in Hlt.
  destruct vg as [| | | | | |g]; try (specialize (H3 Hlt); discriminate H3).
  destruct va as [| | | | | |a]; try (assert (2 <= z) as H by lia;
                                      specialize (H2 H); discriminate H2).
  destruct (assess_quality_reaches_gateway E w g a Hw Hg Hva) as [rest Hrest].
  eauto.
Qed.

Lemma quality_button_reaches_the_gateway_witness :
  exists image_path prompt rest,
    calls (WorkflowManager.assess_quality assess_down generated_run).2 =
    (calls generated_run ++ AssessImageQuality image_path prompt :: rest)%list.
Proof.
  apply (quality_button_reaches_the_gateway
           [ (all_up, example_upload); (all_up, StartProcess);
             (all_up, GenerateContent (JStr "vintage")) ] assess_down).
  vm_compute. reflexivity.
Defined.

(** ** The keywords typed into the page *)

Section Keywords.
Import KeywordsInput.
#[local] Open Scope list_scope.

Lemma lstrip_nil (s : text) :
  lstrip s = [] <-> Forall (fun c => is_space c = true) s.
Proof.
  induction s as [|c s IH]; simpl.
  - split; [constructor | reflexivity].
  - destruct (is_space c) eqn:Hc.
    + rewrite IH. split; [by constructor | by inversion 1].
    + split; [discriminate | inversion 1; congruence].
Qed.

Lemma lstrip_head (s : text) (c : N) :
  head (lstrip s) = Some c -> is_space c = false.
Proof.
  induction s as [|c' s IH]; simpl; [discriminate|].
  destruct (is_space c') eqn:Hc; [exact IH|]. simpl. congruence.
Qed.

Lemma lstrip_split (s : text) :
  exists spaces, s = spaces ++ lstrip s /\ Forall (fun c => is_space c = true) spaces.
Proof.
  induction s as [|c s (spaces & Hs & Hall)]; simpl.
  - by exists [].
  - destruct (is_space c) eqn:Hc.
    + exists (c :: spaces). split; [simpl; congruence | by constructor].
    + by exists [].
Qed.

Lemma lstrip_fixed (s : text) :
  (forall c, head s = Some c -> is_space c = false) -> lstrip s = s.
Proof.
  destruct s as [|c s]; [reflexivity|]. simpl. intros H.
  by rewrite (H c eq_refl).
Qed.

Lemma lstrip_last (s : text) :
  lstrip s ≠ [] -> last (lstrip s) = last s.
Proof.
  intros Hne. destruct (lstrip_split s) as (spaces & Hs & _).
  rewrite Hs at 2. destruct (lstrip s) as [|x t]; [contradiction|].
  symmetry. apply last_app_cons.
Qed.

Lemma rev_nil_iff (s : text) : rev s = [] <-> s = [].
Proof.
  split; [|by intros ->]. intros H. apply (f_equal (@rev N)) in H.
  by rewrite rev_involutive in H.
Qed.

Lemma head_rev (s : text) : head (rev s) = last s.
Proof.
  induction s as [|c s IH] using rev_ind; [reflexivity|].
  by rewrite rev_unit, last_snoc.
Qed.

Lemma last_rev (s : text) : last (rev s) = head s.
Proof. by rewrite <- head_rev, rev_involutive. Qed.

Lemma elem_of_rev (s : text) (c : N) : c ∈ rev s <-> c ∈ s.
Proof. rewrite !list_elem_of_In. symmetry. apply in_rev. Qed.

Lemma lstrip_elem (s : text) (c : N) : c ∈ lstrip s -> c ∈ s.
Proof.
  intros Hc. destruct (lstrip_split s) as (spaces & Hs & _).
  rewrite Hs. apply elem_of_app. by right.
Qed.

Lemma strip_nil (s : text) :
  strip s = [] <-> Forall (fun c => is_space c = true) s.
Proof.
  unfold strip, rstrip. rewrite rev_nil_iff, lstrip_nil.
  split.
  - intros H. destruct (lstrip_split s) as (spaces & Hs & Hall).
    rewrite Hs. apply Forall_app. split; [exact Hall|].
    apply Forall_forall. intros c Hc. rewrite Forall_forall in H.
    apply H. by apply elem_of_rev.
  - intros H. apply Forall_forall. intros c Hc. rewrite Forall_forall in H.
    apply H. apply (proj1 (elem_of_rev _ _)) in Hc. by apply lstrip_elem.
Qed.

Lemma strip_elem (s : text) (c : N) : c ∈ strip s -> c ∈ s.
Proof.
  unfold strip, rstrip. intros Hc.
  apply (proj1 (elem_of_rev _ _)), lstrip_elem in Hc.
  apply (proj1 (elem_of_rev _ _)) in Hc. by apply lstrip_elem.
Qed.

Lemma strip_clean_ends (s : text) :
  (forall c, head (strip s) = Some c -> is_space c = false) /\
  (forall c, last (strip s) = Some c -> is_space c = false).
Proof.
  unfold strip, rstrip. split; intros c.
  - rewrite head_rev. intros Hlast.
    destruct (decide (lstrip (rev (lstrip s)) = [])) as [He|Hne].
    + rewrite He in Hlast. discriminate.
    + rewrite (lstrip_last _ Hne), last_rev in Hlast.
      by apply lstrip_head in Hlast.
  - rewrite last_rev. apply lstrip_head.
Qed.

Lemma strip_fixed (k : text) : clean k -> strip k = k.
Proof.
  intros (_ & _ & Hhead & Hlast). unfold strip, rstrip.
  rewrite (lstrip_fixed k Hhead).
  rewrite lstrip_fixed; [apply rev_involutive|].
  intros c. rewrite head_rev. apply Hlast.
Qed.

Lemma split_comma_cons (s : text) : exists piece pieces, split_comma s = piece :: pieces.
Proof.
  induction s as [|c s (p & ps & IH)]; simpl; [eauto|].
  destruct (c =? comma)%N; [eauto|]. rewrite IH. eauto.
Qed.

Lemma split_comma_no_comma (s piece : text) :
  piece ∈ split_comma s -> comma ∉ piece.
Proof.
  revert piece. induction s as [|c s IH]; simpl; intros piece Hin.
  - apply list_elem_of_singleton in Hin as ->. apply not_elem_of_nil.
  - destruct (N.eqb_spec c comma) as [->|Hne].
    + apply elem_of_cons in Hin as [->|Hin]; [apply not_elem_of_nil | by apply IH].
    + destruct (split_comma_cons s) as (p & ps & Hs). rewrite Hs in Hin, IH.
      apply elem_of_cons in Hin as [->|Hin].
      * apply not_elem_of_cons. split; [congruence|]. apply IH. by left.
      * apply IH. by right.
Qed.

Lemma split_comma_covers (s : text) (c : N) :
  c ∈ s -> c ≠ comma -> exists piece, piece ∈ split_comma s /\ c ∈ piece.
Proof.
  induction s as [|c' s IH]; simpl; intros Hin Hne; [by apply elem_of_nil in Hin|].
  destruct (split_comma_cons s) as (p & ps & Hs).
  destruct (N.eqb_spec c' comma) as [->|Hne'].
  - apply elem_of_cons in Hin as [->|Hin]; [contradiction|].
    destruct (IH Hin Hne) as (piece & Hp & Hc).
    exists piece. split; [by right | exact Hc].
  - rewrite Hs in IH |- *.
    apply elem_of_cons in Hin as [->|Hin].
    + exists (c' :: p). split; by left.
    + destruct (IH Hin Hne) as (piece & Hp & Hc).
      apply elem_of_cons in Hp as [->|Hp].
      * exists (c' :: p). split; [by left | by right].
      * exists piece. split; [by right | exact Hc].
Qed.

Lemma split_comma_within (s piece : text) (c : N) :
  piece ∈ split_comma s -> c ∈ piece -> c ∈ s.
Proof.
  revert piece. induction s as [|c' s IH]; simpl; intros piece Hp Hc.
  - apply list_elem_of_singleton in Hp as ->. by apply elem_of_nil in Hc.
  - destruct (split_comma_cons s) as (p & ps & Hs).
    destruct (N.eqb_spec c' comma) as [->|Hne'].
    + apply elem_of_cons in Hp as [->|Hp]; [by apply elem_of_nil in Hc|].
      right. by apply (IH piece).
    + rewrite Hs in Hp, IH. apply elem_of_cons in Hp as [->|Hp].
      * apply elem_of_cons in Hc as [->|Hc]; [by left|].
        right. apply (IH p); [by left | exact Hc].
      * right. apply (IH piece); [by right | exact Hc].
Qed.

(** X15: every keyword that the page hands to [upload_materials] is
    non-empty, holds no comma, and neither starts nor ends with white
    space. *)
Theorem parsed_keywords_are_clean (keywords_input k : text) :
  k ∈ parse_keywords keywords_input -> clean k.
Proof.
  unfold parse_keywords. intros Hk.
  apply list_elem_of_filter in Hk as [Hne Hk].
  apply list_elem_of_fmap in Hk as (piece & -> & Hpiece).
  split; [by destruct (strip piece)|]. split.
  - intros Hc. apply strip_elem in Hc. by apply split_comma_no_comma in Hpiece.
  - apply strip_clean_ends.
Qed.

(** X16: the page hands over no keyword at all exactly when the text of
    the field is made of commas and white space only; such a text, if not
    empty, still enables the Upload button. *)
Theorem parse_keywords_empty (keywords_input : text) :
  (parse_keywords keywords_input = [] <-> blank keywords_input) /\
  (forall uploaded_files,
     upload_disabled uploaded_files keywords_input = false <->
     (0 < uploaded_files)%nat /\ keywords_input ≠ []).
Proof.
  split; [|intros n; unfold upload_disabled;
           destruct n, keywords_input; simpl; split;
           try discriminate; try (intros [? ?]; lia || congruence);
           intros _; split; (lia || discriminate)].
  unfold parse_keywords, blank. split.
  - intros Hnil. apply Forall_forall. intros c Hc.
    destruct (N.eq_dec c comma) as [->|Hne]; [by left|]. right.
    destruct (split_comma_covers _ _ Hc Hne) as (piece & Hp & Hcp).
    destruct (decide (strip piece = [])) as [He|Hs].
    + apply strip_nil in He. rewrite Forall_forall in He. by apply He.
    + exfalso. assert (strip piece ∈ @nil text) as Hin; [|by apply elem_of_nil in Hin].
      rewrite <- Hnil. apply list_elem_of_filter. split.
      * by destruct (strip piece).
      * apply list_elem_of_fmap. by exists piece.
  - intros Hblank.
    destruct (filter _ _) as [|k ks] eqn:Hf; [reflexivity|]. exfalso.
    assert (k ∈ filter (fun k => nonempty k = true) (map strip (split_comma keywords_input)))
      as Hk by (rewrite Hf; by left).
    apply list_elem_of_filter in Hk as [Hne Hk].
    apply list_elem_of_fmap in Hk as (piece & -> & Hpiece).
    assert (strip piece = []) as He; [|by rewrite He in Hne].
    apply strip_nil, Forall_forall. intros c Hc.
    rewrite Forall_forall in Hblank.
    destruct (Hblank c (split_comma_within _ _ _ Hpiece Hc)) as [->|Hsp]; [|exact Hsp].
    by apply split_comma_no_comma in Hpiece.
Qed.

Lemma split_comma_plain (k : text) : comma ∉ k -> split_comma k = [k].
Proof.
  induction k as [|c k IH]; simpl; intros Hk; [reflexivity|].
  apply not_elem_of_cons in Hk as [Hc Hk].
  destruct (N.eqb_spec c comma) as [->|_]; [contradiction|].
  by rewrite (IH Hk).
Qed.

Lemma split_comma_app (k rest : text) :
  comma ∉ k -> split_comma (k ++ comma :: rest) = k :: split_comma rest.
Proof.
  induction k as [|c k IH]; simpl; intros Hk.
  - reflexivity.
  - apply not_elem_of_cons in Hk as [Hc Hk].
    destruct (N.eqb_spec c comma) as [->|_]; [contradiction|].
    by rewrite (IH Hk).
Qed.

Lemma lstrip_spaces (spaces k : text) :
  Forall (fun c => is_space c = true) spaces -> lstrip (spaces ++ k) = lstrip k.
Proof.
  induction 1 as [|c spaces Hc _ IH]; simpl; [reflexivity|]. by rewrite Hc.
Qed.

Lemma strip_padded (spaces k : text) :
  Forall (fun c => is_space c = true) spaces -> clean k -> strip (spaces ++ k) = k.
Proof.
  intros Hsp Hk. unfold strip. rewrite (lstrip_spaces _ _ Hsp).
  fold (strip k). by apply strip_fixed.
Qed.

Lemma split_joined (spaces : text) (keywords : list text) :
  Forall (fun c => is_space c = true) spaces ->
  comma ∉ spaces ->
  Forall clean keywords ->
  keywords ≠ [] ->
  map strip (split_comma (spaces ++ join_comma keywords)) = keywords.
Proof.
  intros Hsp Hnc Hall. revert spaces Hsp Hnc.
  induction Hall as [|k keywords Hk Hall IH]; intros spaces Hsp Hnc Hne;
    [contradiction|].
  assert (comma ∉ spaces ++ k) as Hplain.
  { intros [?|?]%elem_of_app; [contradiction|]. by destruct Hk as (_ & ? & _). }
  destruct keywords as [|k' keywords].
  - simpl. rewrite (split_comma_plain _ Hplain). simpl.
    by rewrite (strip_padded _ _ Hsp Hk).
  - change (join_comma (k :: k' :: keywords))
      with (k ++ comma :: [32%N] ++ join_comma (k' :: keywords)).
    rewrite app_assoc, (split_comma_app _ _ Hplain). rewrite map_cons.
    rewrite (strip_padded _ _ Hsp Hk). f_equal.
    apply (IH [32%N]); [by repeat constructor | | discriminate].
    intros [Heq|Hin]%elem_of_cons; [discriminate | by apply elem_of_nil in Hin].
Qed.

(** X17: round trip: keywords that are non-empty, without comma and
    without white space at their ends, written out with ", " between them,
    are read back as they were. *)
Theorem parse_keywords_of_joined (keywords : list text) :
  Forall clean keywords ->
  parse_keywords (join_comma keywords) = keywords.
Proof.
  intros Hall. unfold parse_keywords.
  destruct keywords as [|k keywords]; [reflexivity|].
  rewrite <- (app_nil_l (join_comma (k :: keywords))).
  rewrite split_joined;
    [|constructor | apply not_elem_of_nil | exact Hall | discriminate].
  induction Hall as [|k0 ks Hk Hall IH]; [reflexivity|].
  rewrite filter_cons_True; [by rewrite IH|].
  destruct Hk as (Hne & _). by destruct k0.
Qed.

Lemma parsed_keywords_are_clean_witness : clean [98%N].
Proof.
  apply (parsed_keywords_are_clean [97; 44; 32; 98]%N [98%N]).
  change (parse_keywords [97; 44; 32; 98]%N) with [[97%N]; [98%N]].
  apply elem_of_cons. right. apply elem_of_cons. by left.
Defined.

Lemma parse_keywords_of_joined_witness :
  parse_keywords (join_comma [[97%N]; [98%N]]) = [[97%N]; [98%N]].
Proof.
  apply (parse_keywords_of_joined [[97%N]; [98%N]]).
  repeat constructor; try discriminate;
    try (intros H; apply list_elem_of_singleton in H; discriminate H);
    intros c Hc; injection Hc as <-; reflexivity.
Defined.

End Keywords.

(** ** A reset makes new lists *)

(** X18: [reset_workflow_state] installs a new, empty status log: what a
    caller appends afterwards through a list it was handed before the
    reset is not seen by the reads of the new run (every address in use
    being below the next free one). *)
Theorem reset_detaches_old_lists (s : Shared.session) (l : Shared.loc)
    (x : Shared.val) (s' : Shared.session) :
  (l < Shared.next s)%nat ->
  Shared.list_append (Shared.VRef l) x (Shared.reset_workflow_state s) = Some s' ->
  Shared.read_status_logs (Shared.reset_workflow_state s) = Some [] /\
  Shared.read_status_logs s' = Some [].
Proof.
  intros Hl.
  unfold Shared.list_append, Shared.read_status_logs, Shared.get_workflow_data,
    Shared.items_of, Shared.reset_workflow_state, Shared.alloc. simpl.
  repeat (first [rewrite lookup_insert_eq | rewrite lookup_insert_ne by lia
                 | rewrite lookup_insert_ne by done]; simpl).
  destruct (Shared.heap s !! l) as [[items|entries]|] eqn:Hold; try discriminate.
  intros [= <-]. simpl.
  split; [reflexivity|].
  repeat (first [rewrite lookup_insert_eq | rewrite lookup_insert_ne by lia
                 | rewrite lookup_insert_ne by done]; simpl).
  reflexivity.
Qed.

Lemma reset_detaches_old_lists_witness :
  let s := Shared.Session {[ 0%nat := Shared.OList [] ]} 1%nat 0%nat in
  Shared.read_status_logs (Shared.reset_workflow_state s) = Some [] /\
  Shared.read_status_logs
    (Shared.Session
       (<[0%nat := Shared.OList [Shared.VInt 7]]>
          (Shared.heap (Shared.reset_workflow_state s)))
       (Shared.next (Shared.reset_workflow_state s))
       (Shared.workflow_state (Shared.reset_workflow_state s))) = Some [].
Proof.
  intros s.
  apply (reset_detaches_old_lists s 0%nat (Shared.VInt 7)).
  - simpl. lia.
  - reflexivity.
Defined.

(** ** The trend service as it is called *)

Lemma client_trends_body (net : network) (resp : response) (v : json) :
  net (request_of GetYoutubeTrends) = Ok resp ->
  status_code resp = 200 ->
  json_body resp = Ok v ->
  client net GetYoutubeTrends = Ok v.
Proof.
  intros Hnet Hstatus Hbody.
  change (try_catch (MicroserviceClient.checked_json (net (request_of GetYoutubeTrends)))
            (fun e => Ok (MicroserviceClient.error_result e)) = Ok v).
  rewrite Hnet. unfold MicroserviceClient.checked_json, raise_for_status. simpl.
  rewrite Hstatus. simpl. by rewrite Hbody.
Qed.

(** X19: the trend route never reaches its agent: whatever the YouTube API
    would do, when the trend service is reached and answers 200 with what
    [youtube_trends] returns, [start_process] stores that answer as the
    trend data: no error in it, and the four mock trends. *)
Theorem trend_route_answer_is_stored
    (get_youtube_trends : string -> PyResult json)
    (net : network) (E : env) (w : world) (resp : response) :
  logging w ->
  gw E = client net ->
  net (request_of GetYoutubeTrends) = Ok resp ->
  status_code resp = 200 ->
  json_body resp = TrendRoute.youtube_trends get_youtube_trends ->
  exists r w' trend_data,
    WorkflowManager.start_process E w = (r, w') /\
    workflow_state w' !! "trend_data" = Some trend_data /\
    json_body resp = Ok trend_data /\
    has_error trend_data = false /\
    trends_of trend_data =
    JList [JStr "AI Technology"; JStr "Gaming Setup"; JStr "Content Creation";
           JStr "Digital Art"].
Proof.
  intros Hw Hgw Hnet Hstatus Hbody.
  destruct (start_process_calls_trend E w Hw) as (r & w' & rest & Hrun & _ & Hstored).
  set (answer := TrendRoute.youtube_trends get_youtube_trends) in *.
  assert (Hanswer : exists v, answer = Ok v /\ is_dict v = true /\ has_error v = false /\
            trends_of v = JList [JStr "AI Technology"; JStr "Gaming Setup";
                                 JStr "Content Creation"; JStr "Digital Art"]).
  { eexists. split; [reflexivity|]. split; [reflexivity|]. split; by vm_compute. }
  destruct Hanswer as (v & Hv & Hdict & Herr & Htrends).
  rewrite Hv in Hbody.
  exists r, w', v. split; [exact Hrun|].
  split.
  - rewrite (Hstored v); [by rewrite Herr| |exact Hdict].
    rewrite Hgw. exact (client_trends_body net resp v Hnet Hstatus Hbody).
  - by rewrite Hbody.
Qed.

Lemma trend_route_answer_is_stored_witness :
  let net : network := fun _ =>
    Ok (Response 200 ""
          (TrendRoute.youtube_trends (fun _ => Raise (Exn "HttpError" "quota")))) in
  let E := Env (client net) (fun n => "12:00:" ++ pretty n) example_str
               (fun _ => "0.72") in
  exists r w' trend_data,
    WorkflowManager.start_process E uploaded_run = (r, w') /\
    workflow_state w' !! "trend_data" = Some trend_data /\
    has_error trend_data = false /\
    trends_of trend_data =
    JList [JStr "AI Technology"; JStr "Gaming Setup"; JStr "Content Creation";
           JStr "Digital Art"].
Proof.
  intros net E.
  destruct (trend_route_answer_is_stored
              (fun _ => Raise (Exn "HttpError" "quota")) net E uploaded_run
              (Response 200 ""
                 (TrendRoute.youtube_trends (fun _ => Raise (Exn "HttpError" "quota")))))
    as (r & w' & trend_data & H1 & H2 & _ & H4 & H5).
  - eexists. vm_compute. reflexivity.
  - reflexivity.
  - reflexivity.
  - reflexivity.
  - reflexivity.
  - exists r, w', trend_data. auto.
Defined.

(** ** The page between operations *)

Lemma preview_from_spec {A} (uploaded_files : list A) (rest : list A) (i : nat) :
  (i + length rest = length uploaded_files)%nat ->
  App.preview_from uploaded_files i rest
  = Ok (map (fun i => (i mod 4)%nat) (seq i (length rest))).
Proof.
  revert i. induction rest as [|x rest IH]; intros i Hi; [reflexivity|].
  simpl in Hi. cbn [App.preview_from length seq map].
  assert (Hcol : App.preview_column uploaded_files i = Ok (i mod 4)%nat).
  { unfold App.preview_column.
    assert (Hm : (i mod 4 < 4)%nat) by (apply Nat.mod_upper_bound; lia).
    assert (Hi4 : (i mod 4 <= i)%nat) by (apply Nat.Div0.mod_le).
    rewrite lookup_seq_lt by lia. reflexivity. }
  rewrite Hcol. simpl. rewrite IH by lia. reflexivity.
Qed.

(** X20: the preview never indexes past its columns: with
    [min(len(uploaded_files), 4)] columns, the file at index [i] is shown
    in column [i % 4], for every list of files. *)
Theorem preview_columns_in_range {A} (uploaded_files : list A) :
  App.preview uploaded_files
  = Ok (map (fun i => (i mod 4)%nat) (seq 0 (length uploaded_files))).
Proof.
  destruct uploaded_files as [|x rest]; [reflexivity|].
  exact (preview_from_spec (x :: rest) (x :: rest) 0 eq_refl).
Qed.

(** The step of a run is a number from 0 to 4. *)
Lemma step_in_range (script : list (env * operation)) (w : world) (z : Z) :
  get_step w = JInt z -> 0 <= z <= 4 ->
  exists z', get_step (run_ops script w) = JInt z' /\ 0 <= z' <= 4.
Proof.
  revert w z. induction script as [|[E op] rest IH]; intros w z Hz Hr.
  - exists z. by split.
  - simpl. destruct (run_op E op w) as [r w'] eqn:Hrun. simpl.
    destruct (run_op_step_kept E op w r w' Hrun) as [Hk|Hk].
    + apply (IH w' z); [by rewrite Hk | exact Hr].
    + apply (IH w' (target op)); [exact Hk | destruct op; simpl; lia].
Qed.

(** X21: whatever operations a session made since a reset, the step is a
    number from 0 to 4, so the page's comparisons with it never raise: the
    sidebar shows the steps before it as completed, the step itself (if
    below 4) as current and the later ones as waiting, a step's container
    is active or completed exactly when the sidebar says so, and the
    Generate and Quality buttons are disabled below steps 2 and 3. *)
Theorem page_follows_the_step (script : list (env * operation)) :
  let w := run_ops script fresh_run in
  exists z,
    0 <= z <= 4 /\ get_step w = JInt z /\
    App.progress w
    = (Ok (zip App.steps
             (replicate (Z.to_nat z) App.Completed
                ++ App.Current :: replicate 3 App.Waiting)), w) /\
    (forall k, App.step_class k (JInt z)
               = Ok (if z =? k then "step-container step-active"
                     else if k <? z then "step-container step-completed"
                     else "step-container")) /\
    App.generate_disabled w = (Ok (z <? 2), w) /\
    App.quality_disabled w = (Ok (z <? 3), w).
Proof.
  intros w.
  destruct (step_in_range script fresh_run 0 eq_refl ltac:(lia)) as (z & Hz & Hr).
  fold w in Hz. exists z. split; [exact Hr|]. split; [exact Hz|].
  assert (Hstep : workflow_state w !! "step" = Some (JInt z)).
  { unfold get_step in Hz. destruct (workflow_state w !! "step"); simpl in Hz;
      [by rewrite Hz | discriminate]. }
  unfold App.progress, App.generate_disabled, App.quality_disabled,
    WorkflowManager.get_current_step.
  rewrite !bind_eq, !state_get_eq, Hstep. cbv beta iota zeta.
  rewrite !lift_eq. simpl default.
  split; [|split; [|split; reflexivity]].
  - assert (Hcases : z = 0 \/ z = 1 \/ z = 2 \/ z = 3 \/ z = 4) by lia.
    destruct Hcases as [->|[->|[->|[->| ->]]]]; reflexivity.
  - intros k. unfold App.step_class, py_eq_int, py_gt_int. simpl.
    destruct (z =? k); [reflexivity|]. destruct (k <? z); reflexivity.
Qed.

(** ** The final section after the quality stage *)

Lemma final_output_truthy
    (generation_data quality_result finalize_result quality_score : json) :
  truthy (JDict {[ "image_data" := generation_data;
                    "quality_data" := quality_result;
                    "finalized_content" := finalize_result;
                    "quality_score" := quality_score ]}) = true.
Proof. by vm_compute. Qed.

Lemma final_output_content
    (generation_data quality_result finalize_result quality_score : json) :
  ({[ "image_data" := generation_data;
      "quality_data" := quality_result;
      "finalized_content" := finalize_result;
      "quality_score" := quality_score ]} : gmap string json)
  !! "finalized_content" = Some finalize_result.
Proof. by vm_compute. Qed.

Lemma final_output_score
    (generation_data quality_result finalize_result quality_score : json) :
  ({[ "image_data" := generation_data;
      "quality_data" := quality_result;
      "finalized_content" := finalize_result;
      "quality_score" := quality_score ]} : gmap string json)
  !! "quality_score" = Some quality_score.
Proof. by vm_compute. Qed.

Lemma format_default (E : env) :
  py_format_2f E WorkflowManager.default_quality_score
  = Ok (str_2f E WorkflowManager.default_quality_score).
Proof. reflexivity. Qed.

Lemma assess_quality_metrics (E : env) (w : world) :
  logging w ->
  exists b w',
    WorkflowManager.assess_quality E w = (Ok b, w') /\
    (b = true ->
     exists shown hashtag_count earlier stamp last,
       App.final_metrics E w' = (Ok (Some (shown, hashtag_count)), w') /\
       status_logs w' =
       (earlier ++
        [WorkflowManager.log_entry stamp
           ("✅ İçerik hazır! " ++ str E hashtag_count ++ " hashtag oluşturuldu")
           "success"; last])%list).
Proof.
  intros Hw.
  unfold WorkflowManager.assess_quality; explore_values.
  all: do 2 eexists; split; [reflexivity|].
  all: intros Hb; try discriminate Hb.
  all: unfold App.final_metrics, WorkflowManager.get_workflow_data.
  all: repeat first
         [ mstep | progress look | use_facts
         | rewrite final_output_truthy | rewrite final_output_content
         | rewrite final_output_score | rewrite format_default ];
       cbv beta iota zeta.
  all: do 5 eexists; split; [reflexivity|].
  all: rewrite status_logs_logged, status_logs_logged, <- app_assoc; reflexivity.
Qed.

(** X22: after [assess_quality] returned True, the final section of the
    page finds a final output and its metrics render: the score formats,
    the hashtags have a length, and the count shown is the count that
    [assess_quality] logged in its last entry but one. *)
Theorem final_metrics_after_success (E : env) (w w' : world) :
  logging w ->
  WorkflowManager.assess_quality E w = (Ok true, w') ->
  exists shown hashtag_count earlier stamp last,
    App.final_metrics E w' = (Ok (Some (shown, hashtag_count)), w') /\
    status_logs w' =
    (earlier ++
     [WorkflowManager.log_entry stamp
        ("✅ İçerik hazır! " ++ str E hashtag_count ++ " hashtag oluşturuldu")
        "success"; last])%list.
Proof.
  intros Hw Hrun.
  destruct (assess_quality_metrics E w Hw) as (b & w1 & Hrun1 & Hb).
  rewrite Hrun in Hrun1. injection Hrun1 as <- <-. by apply Hb.
Qed.

Lemma final_metrics_after_success_witness :
  let w' := (WorkflowManager.assess_quality all_up generated_run).2 in
  exists shown hashtag_count earlier stamp last,
    App.final_metrics all_up w' = (Ok (Some (shown, hashtag_count)), w') /\
    status_logs w' =
    (earlier ++
     [WorkflowManager.log_entry stamp
        ("✅ İçerik hazır! " ++ str all_up hashtag_count ++ " hashtag oluşturuldu")
        "success"; last])%list.
Proof.
  intros w'.
  apply (final_metrics_after_success all_up generated_run w').
  - eexists. vm_compute. reflexivity.
  - vm_compute. reflexivity.
Defined.
